(** * pyftdi.serialext.protocol_ftdi: the pyserial adapter over an FTDI device

    A shallow embedding of [FtdiSerial] (src/pyftdi/serialext/protocol_ftdi.py).
    The adapter is stateful and talks to two collaborators that are not part
    of the file: the FTDI driver object ([Ftdi], reached through [self.udev])
    and the wall clock ([time.time], [time.sleep]).  Both are kept abstract:
    the driver is a record of transition functions over a device state of an
    arbitrary type, so that every theorem below holds for every driver.

    Python exceptions are modelled by a result type, attribute state by a
    record, and the methods by a small state-and-exception monad. *)

From Stdlib Require Import ZArith QArith Qround List String Bool Lia Lqa.
From Stdlib Require Import Sorted.
Import ListNotations.

Set Implicit Arguments.

(** ** Values *)

(** [bytes] / [bytearray] objects. *)
Definition bytes := list Byte.byte.

(** The exception classes that can reach the adapter.  [FtdiError] is what
    the driver raises on a failed USB transfer; [SerialException] is
    pyserial's; both derive from [IOError]. *)
Inductive ExcClass : Type :=
| IOError
| FtdiError
| SerialException
| UsbToolsError
| AttributeError
| ValueError
| OverflowError.

(** An exception object: its class and [str(ex)]. *)
Record Exc : Type := mkExc { exc_class : ExcClass; exc_str : string }.

(** [isinstance(ex, IOError)], as tested by [except IOError]. *)
Definition isinstance_IOError (e : Exc) : bool :=
  match exc_class e with
  | IOError | FtdiError | SerialException => true
  | _ => false
  end.

Definition isinstance_UsbToolsError (e : Exc) : bool :=
  match exc_class e with
  | UsbToolsError => true
  | _ => false
  end.

Definition isinstance_AttributeError (e : Exc) : bool :=
  match exc_class e with
  | AttributeError => true
  | _ => false
  end.

(** The outcome of a call: a returned value or a raised exception. *)
Inductive Result (A : Type) : Type :=
| Ok (a : A)
| Raise (e : Exc).
Arguments Ok {A} a.
Arguments Raise {A} e.

(** A device object, as returned by [Ftdi.create_from_url]. *)
Definition Handle := nat.

(** pyserial's stop-bit and parity settings, passed through untouched. *)
Inductive Stopbits : Type := STOPBITS_ONE | STOPBITS_ONE_POINT_FIVE | STOPBITS_TWO.
Inductive Parity : Type :=
  PARITY_NONE | PARITY_EVEN | PARITY_ODD | PARITY_MARK | PARITY_SPACE.

(** ** The collaborators *)

(** Calls the adapter makes on its collaborators, in the order made. *)
Inductive Call : Type :=
| CreateFromUrl (url : string)
| DevClose (h : Handle)
| ReadData (h : Handle) (size : Z)
| SetBaudrate (h : Handle) (baudrate : Z)
| SetLineProperty (h : Handle) (bytesize : Z) (stopbits : Stopbits) (parity : Parity)
| SetFlowctrl (h : Handle) (mode : string)
| SetDynamicLatency (h : Handle) (lmin lmax threshold : Z)
| GetErrorString (h : Handle)
| Sleep (seconds : Q).

(** The FTDI driver, over a device state [D].  Every method may return or
    raise and may change the device.  [set_dynamic_latency] is [None] for a
    backend that has no such method.  [elapse] is what happens to the device
    while the caller sleeps; [cost] is the time a call takes on top of that. *)
Record Driver (D : Type) : Type := mkDriver {
  create_from_url : string -> D -> Result Handle * D;
  dev_close : Handle -> D -> Result unit * D;
  read_data : Handle -> Z -> D -> Result bytes * D;
  set_baudrate : Handle -> Z -> D -> Result unit * D;
  set_line_property : Handle -> Z -> Stopbits -> Parity -> D -> Result unit * D;
  set_flowctrl : Handle -> string -> D -> Result unit * D;
  set_dynamic_latency : option (Handle -> Z -> Z -> Z -> D -> Result unit * D);
  get_error_string : Handle -> D -> Result string * D;
  elapse : Q -> D -> D;
  cost : Call -> D -> Q
}.

(** Everything outside the adapter: the device, the wall clock, and the
    calls made so far (most recent last). *)
Record World (D : Type) : Type := mkWorld {
  dev : D;
  clock : Q;
  trace : list Call
}.

(** ** The adapter object *)

(** An instance attribute that is assigned only by [open] and [close]: it
    does not exist before the first [open]. *)
Inductive Attr : Type :=
| Unset
| PyNone
| Dev (h : Handle).

(** A Python number as an attribute such as [_timeout] may hold it: an int
    or a finite float, an infinity, or not-a-number. *)
Inductive PyFloat : Type :=
| Finite (q : Q)
| PosInf
| NegInf
| NaN.

(** [ms > timeout] for a finite [ms]: never true of [inf] or [nan]. *)
Definition gt_float (ms : Q) (timeout : PyFloat) : bool :=
  match timeout with
  | Finite t => negb (Qle_bool ms t)
  | PosInf => false
  | NegInf => true
  | NaN => false
  end.

(** The attributes of a [FtdiSerial] instance that the methods use.  All but
    [udev] are created by [SerialBase.__init__]. *)
Record Port : Type := mkPort {
  port : option string;
  is_open : bool;
  udev : Attr;
  _baudrate : Z;
  _bytesize : Z;
  _stopbits : Stopbits;
  _parity : Parity;
  _timeout : option PyFloat;
  _rtscts : bool;
  _xonxoff : bool
}.

(** [self.portstr], which the [port] setter keeps equal to [self.port]. *)
Definition portstr (p : Port) : string :=
  match port p with
  | Some s => s
  | None => "None"
  end.

Definition set_udev (u : Attr) (p : Port) : Port :=
  mkPort (port p) (is_open p) u (_baudrate p) (_bytesize p) (_stopbits p)
         (_parity p) (_timeout p) (_rtscts p) (_xonxoff p).

Definition set_is_open (b : bool) (p : Port) : Port :=
  mkPort (port p) b (udev p) (_baudrate p) (_bytesize p) (_stopbits p)
         (_parity p) (_timeout p) (_rtscts p) (_xonxoff p).

(** ** The method monad: attribute state, collaborators, exceptions *)

Section Adapter.

Variable D : Type.
Variable drv : Driver D.

(** A method body: it reads and assigns attributes, calls the collaborators,
    and returns or raises.  Assignments made before an exception persist. *)
Definition M (A : Type) : Type := Port -> World D -> Result A * Port * World D.

Definition ret {A : Type} (a : A) : M A := fun p w => (Ok a, p, w).

Definition raise {A : Type} (e : Exc) : M A := fun p w => (Raise e, p, w).

Definition bind {A B : Type} (m : M A) (k : A -> M B) : M B :=
  fun p w =>
    match m p w with
    | (Ok a, p', w') => k a p' w'
    | (Raise e, p', w') => (Raise e, p', w')
    end.

(** [try: m  except <classes> as e: handler e]. *)
Definition try_except {A : Type} (m : M A) (catches : Exc -> bool)
    (handler : Exc -> M A) : M A :=
  fun p w =>
    match m p w with
    | (Ok a, p', w') => (Ok a, p', w')
    | (Raise e, p', w') =>
        if catches e then handler e p' w' else (Raise e, p', w')
    end.

Definition get_attr {A : Type} (f : Port -> A) : M A := fun p w => (Ok (f p), p, w).

Definition assign (f : Port -> Port) : M unit := fun p w => (Ok tt, f p, w).

(** A call on a collaborator: logged, timed, and answered by the driver. *)
Definition invoke {A : Type} (c : Call) (f : D -> Result A * D) : M A :=
  fun p w =>
    let (r, d') := f (dev w) in
    (r, p, mkWorld d' (clock w + cost drv c (dev w)) (trace w ++ [c])).

(** Evaluating [self.udev.<meth>]: the attribute must exist and hold a
    device object. *)
Definition udev_method (meth : string) : M Handle :=
  fun p w =>
    match udev p with
    | Dev h => (Ok h, p, w)
    | PyNone =>
        (Raise (mkExc AttributeError
                  ("'NoneType' object has no attribute '" ++ meth ++ "'")), p, w)
    | Unset =>
        (Raise (mkExc AttributeError "'Serial' object has no attribute 'udev'"), p, w)
    end.

(** [time.sleep(seconds)]: the clock advances by at least [seconds] and the
    device lives on meanwhile. *)
Definition sleep (seconds : Q) : M unit :=
  fun p w =>
    (Ok tt, p,
     mkWorld (elapse drv seconds (dev w))
             (clock w + seconds + cost drv (Sleep seconds) (dev w))
             (trace w ++ [Sleep seconds])).

End Adapter.

Arguments ret {D A} a.
Arguments raise {D A} e.
Arguments bind {D A B} m k.
Arguments try_except {D A} m catches handler.
Arguments get_attr {D A} f.
Arguments assign {D} f.
Arguments invoke {D} drv {A} c f.
Arguments udev_method {D} meth.
Arguments sleep {D} drv seconds.

Declare Scope py_scope.
Delimit Scope py_scope with py.
Notation "x <- m ;; k" := (bind m (fun x => k))
  (at level 61, m at next level, right associativity) : py_scope.
Notation "m ;; k" := (bind m (fun _ => k))
  (at level 61, right associativity) : py_scope.
Local Open Scope py_scope.
Local Open Scope string_scope.
Local Open Scope Z_scope.

(** ** The methods of [FtdiSerial] *)

Section Methods.

Variable D : Type.
Variable drv : Driver D.

(** [_set_open_state]. *)
Definition _set_open_state (open_ : bool) : M D unit :=
  assign (set_is_open open_).

(** The [if]/[elif]/[else] of [_reconfigure_port]: the argument given to
    [set_flowctrl]. *)
Definition flowctrl_mode (p : Port) : string :=
  if _rtscts p then "hw"
  else if _xonxoff p then "sw"
  else "".

(** [self.udev.set_dynamic_latency(12, 200, 50)]: the attribute lookup fails
    on a backend without the method. *)
Definition call_set_dynamic_latency : M D unit :=
  h <- udev_method "set_dynamic_latency" ;;
  match set_dynamic_latency drv with
  | Some f => invoke drv (SetDynamicLatency h 12 200 50) (f h 12 200 50)
  | None =>
      raise (mkExc AttributeError
                 "'Ftdi' object has no attribute 'set_dynamic_latency'")
  end.

(** The body of the outer [try] of [_reconfigure_port]. *)
Definition _reconfigure_port_body : M D unit :=
  h <- udev_method "set_baudrate" ;;
  baudrate <- get_attr _baudrate ;;
  invoke drv (SetBaudrate h baudrate) (set_baudrate drv h baudrate) ;;
  h <- udev_method "set_line_property" ;;
  bytesize <- get_attr _bytesize ;;
  stopbits <- get_attr _stopbits ;;
  parity <- get_attr _parity ;;
  invoke drv (SetLineProperty h bytesize stopbits parity)
             (set_line_property drv h bytesize stopbits parity) ;;
  mode <- get_attr flowctrl_mode ;;
  h <- udev_method "set_flowctrl" ;;
  invoke drv (SetFlowctrl h mode) (set_flowctrl drv h mode) ;;
  try_except call_set_dynamic_latency isinstance_AttributeError
    (fun _ => ret tt).

(** [_reconfigure_port]. *)
Definition _reconfigure_port : M D unit :=
  try_except _reconfigure_port_body isinstance_IOError
    (fun e =>
       h <- udev_method "get_error_string" ;;
       err <- invoke drv (GetErrorString h) (get_error_string drv h) ;;
       raise (mkExc SerialException (exc_str e ++ " (" ++ err ++ ")"))).

(** [open]. *)
Definition open : M D unit :=
  url <- get_attr port ;;
  match url with
  | None => raise (mkExc SerialException "Port must be configured before use.")
  | Some url =>
      device <-
        try_except
          (invoke drv (CreateFromUrl url) (create_from_url drv url))
          (fun ex => isinstance_UsbToolsError ex || isinstance_IOError ex)
          (fun ex =>
             name <- get_attr portstr ;;
             raise (mkExc SerialException
                        ("Unable to open USB port " ++ name ++ ": " ++ exc_str ex))) ;;
      assign (set_udev (Dev device)) ;;
      _set_open_state true ;;
      _reconfigure_port
  end.

(** [close].  A device object is truthy; [None] is not. *)
Definition close : M D unit :=
  _set_open_state false ;;
  u <- get_attr udev ;;
  match u with
  | Unset => raise (mkExc AttributeError "'Serial' object has no attribute 'udev'")
  | PyNone => ret tt
  | Dev h =>
      invoke drv (DevClose h) (dev_close drv h) ;;
      assign (set_udev PyNone)
  end.

(** The properties [in_waiting] and [out_waiting]. *)
Definition in_waiting : M D Z := ret 0.

Definition out_waiting : M D Z := ret 0.

(** [if buf:] on a bytes object. *)
Definition truthy (buf : bytes) : bool :=
  match buf with
  | [] => false
  | _ :: _ => true
  end.

(** The [while True] loop of [read], entered with the accumulator [data], the
    time [start] and [size] bytes still wanted.  The loop has no bound of its
    own, so the model counts iterations: [None] means that [fuel] iterations
    were not enough.  [now()] is the clock of the world; time stamps are
    taken as exact rationals. *)
Fixpoint read_loop (fuel : nat) (data : bytes) (start : Q) (size : Z)
    (p : Port) (w : World D) : option (Result bytes * Port * World D) :=
  match fuel with
  | O => None
  | S fuel' =>
      match (h <- udev_method "read_data" ;;
             invoke drv (ReadData h size) (read_data drv h size)) p w with
      | (Raise e, p1, w1) => Some (Raise e, p1, w1)
      | (Ok buf, p1, w1) =>
          let data := (data ++ buf)%list in
          let size := size - Z.of_nat (List.length buf) in
          let again :=
            let '(_, p2, w2) := sleep drv (1 # 100) p1 w1 in
            read_loop fuel' data start size p2 w2 in
          if size <=? 0 then Some (Ok data, p1, w1)
          else
            match _timeout p1 with
            | Some timeout =>
                if truthy buf then Some (Ok data, p1, w1)
                else
                  let ms := (clock w1 - start)%Q in
                  if gt_float ms timeout then Some (Ok data, p1, w1)
                  else again
            | None => again
            end
      end
  end.

(** [read(size)]. *)
Definition read (fuel : nat) (size : Z) (p : Port) (w : World D)
    : option (Result bytes * Port * World D) :=
  read_loop fuel [] (clock w) size p w.

End Methods.

Arguments _set_open_state D open_ : clear implicits.
Arguments in_waiting D : clear implicits.
Arguments flowctrl_mode p : simpl never.
Arguments out_waiting D : clear implicits.

(** ** A scripted device, for running the methods on concrete inputs *)

Module Mock.

(** What the scripted driver answers to each call other than [read_data]. *)
Record Script : Type := mkScript {
  on_create : Result Handle;
  on_close : Result unit;
  on_baudrate : Result unit;
  on_line_property : Result unit;
  on_flowctrl : Result unit;
  has_dynamic_latency : bool;
  error_string : string;
  receives : bool
}.

(** The device state is the list of chunks still to be delivered, one per
    poll; a chunk longer than the request is delivered in pieces. *)
Definition deliver (size : Z) (pending : list bytes) : Result bytes * list bytes :=
  match pending with
  | [] => (Ok [], [])
  | c :: rest =>
      let n := Z.to_nat size in
      (Ok (firstn n c),
       match skipn n c with
       | [] => rest
       | more => more :: rest
       end)
  end.

Definition driver (s : Script) : Driver (list bytes) :=
  mkDriver
    (fun _ d => (on_create s, d))
    (fun _ d => (on_close s, d))
    (fun _ size d => if receives s then deliver size d else (Ok [], d))
    (fun _ _ d => (on_baudrate s, d))
    (fun _ _ _ _ d => (on_line_property s, d))
    (fun _ _ d => (on_flowctrl s, d))
    (if has_dynamic_latency s then Some (fun _ _ _ _ d => (Ok tt, d)) else None)
    (fun _ d => (Ok (error_string s), d))
    (fun _ d => d)
    (fun _ _ => 0%Q).

(** A device on which everything works. *)
Definition healthy : Script :=
  mkScript (Ok 7%nat) (Ok tt) (Ok tt) (Ok tt) (Ok tt) true "no error" true.

(** A device on which everything works and whose line is silent. *)
Definition silent : Script :=
  mkScript (Ok 7%nat) (Ok tt) (Ok tt) (Ok tt) (Ok tt) true "no error" false.

(** A backend without [set_dynamic_latency]. *)
Definition legacy : Script :=
  mkScript (Ok 7%nat) (Ok tt) (Ok tt) (Ok tt) (Ok tt) false "no error" true.

(** No device answers the URL. *)
Definition unplugged : Script :=
  mkScript (Raise (mkExc UsbToolsError "No USB device matches URL"))
           (Ok tt) (Ok tt) (Ok tt) (Ok tt) true "no error" true.

(** The device is found but refuses the baud rate with an I/O error. *)
Definition stalled : Script :=
  mkScript (Ok 7%nat) (Ok tt) (Raise (mkExc IOError "UsbError: Pipe error"))
           (Ok tt) (Ok tt) true "usb_control_transfer failed" true.

(** A port as [SerialBase.__init__] leaves it: 9600 8N1, never opened. *)
Definition fresh (url : option string) (timeout : option PyFloat)
    (rtscts xonxoff : bool) : Port :=
  mkPort url false Unset 9600 8 STOPBITS_ONE PARITY_NONE timeout rtscts xonxoff.

Definition world0 (pending : list bytes) : World (list bytes) :=
  mkWorld pending 0%Q [].

(** An opened port on handle 7. *)
Definition opened (timeout : option PyFloat) : Port :=
  set_is_open true (set_udev (Dev 7%nat) (fresh (Some "usb-device-1") timeout false false)).

(** A bytes literal. *)
Definition b (s : string) : bytes := list_byte_of_string s.

End Mock.

(** A device that records what is applied to it: its state is the list of
    the settings it has received, in order. *)
Module Recorder.

Definition driver : Driver (list Call) :=
  mkDriver
    (fun _ d => (Ok 7%nat, d))
    (fun h d => (Ok tt, d ++ [DevClose h])%list)
    (fun _ _ d => (Ok [], d))
    (fun h baudrate d => (Ok tt, d ++ [SetBaudrate h baudrate])%list)
    (fun h bytesize stopbits parity d =>
       (Ok tt, d ++ [SetLineProperty h bytesize stopbits parity])%list)
    (fun h mode d => (Ok tt, d ++ [SetFlowctrl h mode])%list)
    (Some (fun h lmin lmax threshold d =>
             (Ok tt, d ++ [SetDynamicLatency h lmin lmax threshold])%list))
    (fun _ d => (Ok "no error", d))
    (fun _ d => d)
    (fun _ _ => 0%Q).

Definition world0 : World (list Call) := mkWorld [] 0%Q [].

End Recorder.

(** ** Vocabulary of the properties *)

(** The modes given to [set_flowctrl] in a list of calls, in order. *)
Fixpoint flowctrl_modes (calls : list Call) : list string :=
  match calls with
  | [] => []
  | SetFlowctrl _ mode :: rest => mode :: flowctrl_modes rest
  | _ :: rest => flowctrl_modes rest
  end.

Section Failures.

Variable D : Type.
Variable drv : Driver D.

(** One of the three configuration pushes of [_reconfigure_port], made in
    order on handle [h] from device state [d] with the settings stored in
    [p], raises [ex] and leaves the device in state [d'].  [made] are the
    calls up to and including the one that fails. *)
Inductive PushFails (p : Port) (h : Handle) (d : D) (ex : Exc) (d' : D)
    : list Call -> Prop :=
| baudrate_fails :
    set_baudrate drv h (_baudrate p) d = (Raise ex, d') ->
    PushFails p h d ex d' [SetBaudrate h (_baudrate p)]
| line_property_fails d2 :
    set_baudrate drv h (_baudrate p) d = (Ok tt, d2) ->
    set_line_property drv h (_bytesize p) (_stopbits p) (_parity p) d2 = (Raise ex, d') ->
    PushFails p h d ex d'
      [SetBaudrate h (_baudrate p);
       SetLineProperty h (_bytesize p) (_stopbits p) (_parity p)]
| flowctrl_fails d2 d3 :
    set_baudrate drv h (_baudrate p) d = (Ok tt, d2) ->
    set_line_property drv h (_bytesize p) (_stopbits p) (_parity p) d2 = (Ok tt, d3) ->
    set_flowctrl drv h (flowctrl_mode p) d3 = (Raise ex, d') ->
    PushFails p h d ex d'
      [SetBaudrate h (_baudrate p);
       SetLineProperty h (_bytesize p) (_stopbits p) (_parity p);
       SetFlowctrl h (flowctrl_mode p)].

End Failures.

(** The reading of "two distinguishable error kinds" that is put to the test:
    whenever [open] fails because the URL does not resolve, and a
    reconfiguration of an open port fails because a push fails with an I/O
    error, the two exceptions raised are of different classes. *)
Definition ErrorKindsDiffer : Prop :=
  forall (D1 D2 : Type) (drv1 : Driver D1) (drv2 : Driver D2)
         p1 w1 url ex1 d1 e1 q1 v1
         p2 w2 h ex2 d2 made e2 q2 v2,
    port p1 = Some url ->
    create_from_url drv1 url (dev w1) = (Raise ex1, d1) ->
    open drv1 p1 w1 = (Raise e1, q1, v1) ->
    udev p2 = Dev h ->
    PushFails drv2 p2 h (dev w2) ex2 d2 made ->
    isinstance_IOError ex2 = true ->
    _reconfigure_port drv2 p2 w2 = (Raise e2, q2, v2) ->
    exc_class e1 <> exc_class e2.


(** The world after a poll answered by the device state [d1], and after the
    10 ms sleep that follows an unsuccessful poll. *)
Definition polled (D : Type) (drv : Driver D) (h : Handle) (size : Z) (d1 : D)
    (w : World D) : World D :=
  mkWorld d1 (clock w + cost drv (ReadData h size) (dev w))
          (trace w ++ [ReadData h size]).

Definition slept (D : Type) (drv : Driver D) (w : World D) : World D :=
  mkWorld (elapse drv (1 # 100) (dev w))
          (clock w + (1 # 100) + cost drv (Sleep (1 # 100)) (dev w))
          (trace w ++ [Sleep (1 # 100)]).

(** The number of bytes in a list of chunks. *)
Definition total (chunks : list bytes) : Z :=
  Z.of_nat (List.length (List.concat chunks)).

(** The device, in state [d], answers the successive polls of a reader that
    still wants [size] bytes with the chunks [chunks]: each poll asks for what
    is still missing, is answered without an exception by at most that many
    bytes, and is followed by a sleep of 10 ms. *)
Fixpoint supplies (D : Type) (drv : Driver D) (h : Handle) (size : Z) (d : D)
    (chunks : list bytes) : Prop :=
  match chunks with
  | [] => True
  | c :: rest =>
      exists d1,
        read_data drv h size d = (Ok c, d1) /\
        Z.of_nat (List.length c) <= size /\
        supplies drv h (size - Z.of_nat (List.length c))
                 (elapse drv (1 # 100) d1) rest
  end.

(** ** The rest of the class *)

(** [range(start, stop, step)] for a positive [step]. *)
Definition range (start stop step : Z) : list Z :=
  map (fun i => start + Z.of_nat i * step)
      (seq 0 (Z.to_nat ((stop - start + step - 1) / step))).

(** [sorted] on integers, by insertion. *)
Fixpoint insert_sorted (x : Z) (l : list Z) : list Z :=
  match l with
  | [] => [x]
  | y :: rest => if x <=? y then x :: l else y :: insert_sorted x rest
  end.

Definition sorted (l : list Z) : list Z := fold_right insert_sorted [] l.

(** The class attribute [BAUDRATES]. *)
Definition BAUDRATES : list Z :=
  sorted (map (fun x => 9600 * (x + 1)) (range 0 6 1) ++
          range 115200 1000000 115200 ++
          range 1000000 13000000 100000)%list.

Section LineControl.

Variable D : Type.
Variable drv : Driver D.

(** The driver's [set_break], which the record above does not list, and the
    time a call of it takes.  The trace keeps to the calls of [Call]: a call
    of [set_break] shows in the device state and on the clock. *)
Variable set_break : Handle -> bool -> D -> Result unit * D.
Variable set_break_cost : bool -> D -> Q.

(** [self.udev.set_break(value)]. *)
Definition call_set_break (value : bool) : M D unit :=
  h <- udev_method "set_break" ;;
  (fun p w =>
     let (r, d') := set_break h value (dev w) in
     (r, p, mkWorld d' (clock w + set_break_cost value (dev w)) (trace w))).

(** What [time.sleep] makes of its argument before it sleeps is the
    interpreter's doing, not this module's: [sleep_check seconds] is the
    exception it raises for a length it refuses (CPython refuses a negative
    one with a [ValueError] and one beyond its time range with an
    [OverflowError]), and [None] for a length it accepts. *)
Variable sleep_check : Q -> option Exc.

(** [time.sleep(seconds)] for any finite argument. *)
Definition time_sleep (seconds : Q) : M D unit :=
  match sleep_check seconds with
  | Some e => raise e
  | None => sleep drv seconds
  end.

(** [send_break(duration)]; the default [duration] is 0.25. *)
Definition send_break (duration : Q) : M D unit :=
  call_set_break true ;;
  time_sleep duration ;;
  call_set_break false.

End LineControl.

(** Variants of a driver, for running the failure paths. *)
Definition with_error_string (D : Type) (drv : Driver D)
    (f : Handle -> D -> Result string * D) : Driver D :=
  mkDriver (create_from_url drv) (dev_close drv) (read_data drv)
           (set_baudrate drv) (set_line_property drv) (set_flowctrl drv)
           (set_dynamic_latency drv) f (elapse drv) (cost drv).

Definition with_dynamic_latency (D : Type) (drv : Driver D)
    (f : Handle -> Z -> Z -> Z -> D -> Result unit * D) : Driver D :=
  mkDriver (create_from_url drv) (dev_close drv) (read_data drv)
           (set_baudrate drv) (set_line_property drv) (set_flowctrl drv)
           (Some f) (get_error_string drv) (elapse drv) (cost drv).

Definition with_read_data (D : Type) (drv : Driver D)
    (f : Handle -> Z -> D -> Result bytes * D) : Driver D :=
  mkDriver (create_from_url drv) (dev_close drv) f
           (set_baudrate drv) (set_line_property drv) (set_flowctrl drv)
           (set_dynamic_latency drv) (get_error_string drv) (elapse drv)
           (cost drv).

(** A device that is nothing but its break line, for running [send_break]. *)
Module MockLine.

Definition driver : Driver bool :=
  mkDriver
    (fun _ d => (Ok 7%nat, d))
    (fun _ d => (Ok tt, d))
    (fun _ _ d => (Ok [], d))
    (fun _ _ d => (Ok tt, d))
    (fun _ _ _ _ d => (Ok tt, d))
    (fun _ _ d => (Ok tt, d))
    None
    (fun _ d => (Ok "no error", d))
    (fun _ d => d)
    (fun _ _ => 0%Q).

(** [set_break] stores the value: the state is whether break is asserted. *)
Definition set_break (h : Handle) (value : bool) (d : bool) : Result unit * bool :=
  (Ok tt, value).

Definition set_break_cost (value : bool) (d : bool) : Q := 0%Q.

(** A scripted clock: it refuses a length of 10^10 s or more in either
    direction with an [OverflowError], and any other negative length with a
    [ValueError]. *)
Definition sleep_check (seconds : Q) : option Exc :=
  if Qle_bool (10000000000 # 1) seconds || Qle_bool seconds (- (10000000000 # 1))
  then Some (mkExc OverflowError "timestamp too large to convert to C _PyTime_t")
  else if Qle_bool 0 seconds then None
  else Some (mkExc ValueError "sleep length must be non-negative").

Definition world0 : World bool := mkWorld false 0%Q [].

End MockLine.

(** A list of integers in strictly ascending order. *)
Fixpoint ascending (l : list Z) : bool :=
  match l with
  | x :: (y :: _) as rest => (x <? y) && ascending rest
  | _ => true
  end.

(** Calls that are polls of handle [h] with one sleep of 10 ms between each
    two, starting and ending with a poll. *)
Fixpoint polls_with_pauses (h : Handle) (calls : list Call) : bool :=
  match calls with
  | ReadData h1 _ :: rest =>
      Nat.eqb h1 h &&
      match rest with
      | [] => true
      | Sleep seconds :: rest' =>
          Qeq_bool seconds (1 # 100) &&
          match rest' with
          | [] => false
          | _ :: _ => polls_with_pauses h rest'
          end
      | _ :: _ => false
      end
  | _ => false
  end.

(** * Properties *)

(** ** Running the monad *)

Section Running.

Variable D : Type.
Variable drv : Driver D.

Lemma invoke_inv (A : Type) (c : Call) (f : D -> Result A * D) p w r p' w' :
  invoke drv c f p w = (r, p', w') ->
  f (dev w) = (r, dev w') /\ p' = p /\ trace w' = (trace w ++ [c])%list /\
  clock w' = (clock w + cost drv c (dev w))%Q.
Proof.
  unfold invoke. destruct (f (dev w)) as [r0 d0]. intros H.
  inversion H; subst; simpl. auto.
Qed.

Lemma invoke_run (A : Type) (c : Call) (f : D -> Result A * D) p w r d' :
  f (dev w) = (r, d') ->
  invoke drv c f p w =
  (r, p, mkWorld d' (clock w + cost drv c (dev w)) (trace w ++ [c])).
Proof. unfold invoke. intros ->. reflexivity. Qed.

Lemma udev_method_run meth p (w : World D) h :
  udev p = Dev h -> udev_method meth p w = (Ok h, p, w).
Proof. unfold udev_method. intros ->. reflexivity. Qed.

End Running.

(** Breaks the next [match] of a run in hypothesis [H] on its scrutinee. *)
Ltac step_in H :=
  match type of H with
  | context [match ?x with _ => _ end] =>
      match x with
      | context [match _ with _ => _ end] => fail 1
      | _ => destruct x eqn:?
      end
  | context [if ?x then _ else _] =>
      match x with
      | context [match _ with _ => _ end] => fail 1
      | _ => destruct x eqn:?
      end
  end; simpl in H; try discriminate H.

(** Runs the next calls of a method forward, given [Hu : udev p = Dev h]
    and the driver's answers among the hypotheses. *)
Ltac run_calls Hu :=
  repeat (first [ rewrite (udev_method_run _ _ _ Hu)
                | erewrite invoke_run by (simpl; eassumption) ];
          cbv beta iota).

Ltac unfold_methods H :=
  unfold open, close, _reconfigure_port, _reconfigure_port_body,
    call_set_dynamic_latency, _set_open_state, udev_method, invoke,
    try_except, bind, get_attr, assign, raise, ret in H;
  simpl in H.

(** ** The waiting counts *)

(** C7.  [in_waiting] and [out_waiting] return 0 for every port state and
    every state of the device, and neither touches the port or the device. *)
Theorem waiting_counts_are_zero (D : Type) (p : Port) (w : World D) :
  in_waiting D p w = (Ok 0, p, w) /\ out_waiting D p w = (Ok 0, p, w).
Proof. split; reflexivity. Qed.

(** ** Closing *)

Section Closing.

Variable D : Type.
Variable drv : Driver D.

(** On a port whose handle is already [None], [close] makes no call and
    returns; all it does is to store [False] in [is_open]. *)
Lemma close_without_handle p (w : World D) :
  udev p = PyNone -> close drv p w = (Ok tt, set_is_open false p, w).
Proof.
  intros Hu. unfold close, _set_open_state, bind, assign, get_attr, ret.
  simpl. rewrite Hu. reflexivity.
Qed.

(** The first [close] of a port that holds a device handle, when the
    device lets go of it, marks the port not open, calls the handle's [close]
    once and stores [None] for the handle; a second [close] then returns
    normally and changes neither the port nor the world. *)
Theorem close_is_idempotent p (w : World D) h d' :
  udev p = Dev h ->
  dev_close drv h (dev w) = (Ok tt, d') ->
  let p1 := set_udev PyNone (set_is_open false p) in
  let w1 := mkWorld d' (clock w + cost drv (DevClose h) (dev w))
                    (trace w ++ [DevClose h]) in
  close drv p w = (Ok tt, p1, w1) /\
  is_open p1 = false /\ udev p1 = PyNone /\
  close drv p1 w1 = (Ok tt, p1, w1).
Proof.
  intros Hu Hc p1 w1.
  split; [ | split; [reflexivity | split; [reflexivity | ] ] ].
  - unfold close, _set_open_state, bind, assign, get_attr. simpl.
    rewrite Hu. unfold invoke. rewrite Hc. reflexivity.
  - apply close_without_handle. reflexivity.
Qed.

End Closing.

(** On the scripted device: an opened port, closed twice. *)
Lemma close_is_idempotent_witness :
  let drv := Mock.driver Mock.healthy in
  let p := set_is_open true (set_udev (Dev 7%nat) (Mock.fresh (Some "ftdi:///1") None false false)) in
  let w := Mock.world0 [] in
  let p1 := set_udev PyNone (set_is_open false p) in
  let w1 := mkWorld [] (0 + 0)%Q [DevClose 7%nat] in
  close drv p w = (Ok tt, p1, w1) /\
  is_open p1 = false /\ udev p1 = PyNone /\
  close drv p1 w1 = (Ok tt, p1, w1).
Proof.
  exact (@close_is_idempotent (list bytes) (Mock.driver Mock.healthy)
           (set_is_open true (set_udev (Dev 7%nat)
              (Mock.fresh (Some "ftdi:///1") None false false)))
           (Mock.world0 []) 7%nat [] eq_refl eq_refl).
Defined.

(** C4 at a port that is closed but was never opened, and at one whose
    [open] failed to resolve the URL: [udev] was never assigned, and
    [close] raises an [AttributeError], the first time and every time
    after. *)
Lemma close_raises_before_first_open :
  let drv := Mock.driver Mock.unplugged in
  let w := Mock.world0 [] in
  let e := mkExc AttributeError "'Serial' object has no attribute 'udev'" in
  let p := Mock.fresh None None false false in
  let q := Mock.fresh (Some "ftdi:///1") None false false in
  is_open p = false /\
  close drv p w = (Raise e, p, w) /\
  (let '(_, p1, w1) := close drv p w in close drv p1 w1) = (Raise e, p, w) /\
  (let '(_, q1, w1) := open drv q w in close drv q1 w1)
  = (Raise e, q, mkWorld [] (0 + 0)%Q [CreateFromUrl "ftdi:///1"]).
Proof. repeat split. Qed.

(** ** Opening and reconfiguring *)

Section Opening.

Variable D : Type.
Variable drv : Driver D.

(** No method assigns a configuration attribute. *)
Lemma reconfigure_keeps_port p (w : World D) r p' w' :
  _reconfigure_port drv p w = (r, p', w') -> p' = p.
Proof.
  intros H. unfold_methods H.
  repeat step_in H; inversion H; reflexivity.
Qed.

(** Once the baud rate and the line property are accepted, the flow-control
    call is made on the device as the line-property call left it, and the
    run ends on the device as that call left it, or as the latency call or
    the request for the error string that came after it left it. *)
Lemma flowctrl_reaches_device p (w : World D) r p' w' h d1 d2 rf d3 :
  _reconfigure_port drv p w = (r, p', w') ->
  udev p = Dev h ->
  set_baudrate drv h (_baudrate p) (dev w) = (Ok tt, d1) ->
  set_line_property drv h (_bytesize p) (_stopbits p) (_parity p) d1
    = (Ok tt, d2) ->
  set_flowctrl drv h (flowctrl_mode p) d2 = (rf, d3) ->
  match rf with
  | Raise e =>
      if isinstance_IOError e
      then exists re, get_error_string drv h d3 = (re, dev w')
      else r = Raise e /\ dev w' = d3
  | Ok _ =>
      match set_dynamic_latency drv with
      | None => r = Ok tt /\ dev w' = d3
      | Some f =>
          exists rl d4,
            f h 12 200 50 d3 = (rl, d4) /\
            (dev w' = d4 \/
             exists re, get_error_string drv h d4 = (re, dev w'))
      end
  end.
Proof.
  intros H Hu Hb Hl Hf. revert H.
  unfold _reconfigure_port, _reconfigure_port_body, try_except, bind, get_attr.
  run_calls Hu.
  destruct rf as [[] | e].
  - unfold call_set_dynamic_latency, bind. run_calls Hu.
    destruct (set_dynamic_latency drv) as [f | ].
    + unfold invoke. cbn [dev].
      destruct (f h 12 200 50 d3) as [[[] | e] d4] eqn:Hlat.
      * intros H. injection H as _ _ <-. exists (Ok tt), d4. auto.
      * destruct (isinstance_AttributeError e).
        -- unfold ret. intros H. injection H as _ _ <-.
           exists (Raise e), d4. auto.
        -- destruct (isinstance_IOError e).
           ++ run_calls Hu. unfold invoke. cbn [dev].
              destruct (get_error_string drv h d4) as [[err | e2] d5] eqn:Herr;
                unfold raise; intros H; injection H as _ _ <-;
                exists (Raise e), d4; (split; [reflexivity | ]);
                right; eexists; cbn [dev]; first [exact Herr | reflexivity].
           ++ intros H. injection H as _ _ <-. exists (Raise e), d4. auto.
    + unfold raise, ret. cbn. intros H. injection H as <- _ <-. auto.
  - destruct (isinstance_IOError e).
    + run_calls Hu. unfold invoke. cbn [dev].
      destruct (get_error_string drv h d3) as [[err | e2] d5] eqn:Herr;
        unfold raise; intros H; injection H as _ _ <-;
        eexists; cbn [dev]; first [exact Herr | reflexivity].
    + intros H. injection H as <- _ <-. auto.
Qed.

(** C6.  Whatever the outcome of a reconfiguration, it calls [set_flowctrl]
    at most once, and never with a mode other than the one the flags select
    in priority order: ['hw'] when [_rtscts] is set (also when [_xonxoff] is
    set too), else ['sw'] when [_xonxoff] is set, else ['']; the call is made
    as soon as the baud rate and the line property have been accepted, and so
    exactly once in every reconfiguration that returns.  The call is made on
    the device: it is the driver's [set_flowctrl] with that mode, on the
    device as the line-property call left it, and the device ends as that
    call left it, or as the latency call or the request for the error string
    that followed left it. *)
Theorem flow_control_priority p (w : World D) r p' w' :
  _reconfigure_port drv p w = (r, p', w') ->
  let mode := if _rtscts p then "hw" else if _xonxoff p then "sw" else "" in
  (exists calls,
    trace w' = (trace w ++ calls)%list /\
    (flowctrl_modes calls = [] \/ flowctrl_modes calls = [mode]) /\
    (r = Ok tt -> flowctrl_modes calls = [mode]) /\
    (forall h d1 d2,
       udev p = Dev h ->
       set_baudrate drv h (_baudrate p) (dev w) = (Ok tt, d1) ->
       set_line_property drv h (_bytesize p) (_stopbits p) (_parity p) d1
         = (Ok tt, d2) ->
       flowctrl_modes calls = [mode])) /\
  (forall h d1 d2 rf d3,
     udev p = Dev h ->
     set_baudrate drv h (_baudrate p) (dev w) = (Ok tt, d1) ->
     set_line_property drv h (_bytesize p) (_stopbits p) (_parity p) d1
       = (Ok tt, d2) ->
     set_flowctrl drv h mode d2 = (rf, d3) ->
     match rf with
     | Raise e =>
         if isinstance_IOError e
         then exists re, get_error_string drv h d3 = (re, dev w')
         else r = Raise e /\ dev w' = d3
     | Ok _ =>
         match set_dynamic_latency drv with
         | None => r = Ok tt /\ dev w' = d3
         | Some f =>
             exists rl d4,
               f h 12 200 50 d3 = (rl, d4) /\
               (dev w' = d4 \/
                exists re, get_error_string drv h d4 = (re, dev w'))
         end
     end).
Proof.
  intros H mode. subst mode. fold (flowctrl_mode p). split.
  - unfold_methods H.
    repeat step_in H; inversion H; subst; clear H; simpl;
      eexists; (split; [rewrite <- ?app_assoc; simpl; try reflexivity;
                        symmetry; apply app_nil_r | ]);
      simpl; (split; [auto | split; [ try discriminate; auto | ] ]);
      intros; simpl in *; try discriminate; try congruence; auto.
  - intros h d1 d2 rf d3 Hu Hb Hl Hf.
    eapply flowctrl_reaches_device; eassumption.
Qed.

(** What [open] does once the URL has been resolved to [h]: store the
    handle, mark the port open, reconfigure. *)
Lemma open_resolved p (w : World D) url h d1 :
  port p = Some url ->
  create_from_url drv url (dev w) = (Ok h, d1) ->
  open drv p w =
  _reconfigure_port drv (set_is_open true (set_udev (Dev h) p))
    (mkWorld d1 (clock w + cost drv (CreateFromUrl url) (dev w))
             (trace w ++ [CreateFromUrl url])).
Proof.
  intros Hp Hc. unfold open, bind, get_attr, try_except, invoke,
    _set_open_state, assign.
  rewrite Hp, Hc. reflexivity.
Qed.



End Opening.

(** C6 on the recording device, with both flags set: hardware wins, and
    the device has received that mode, after the baud rate and the line
    property and before the latency. *)
Lemma flow_control_priority_witness :
  let p := set_udev (Dev 7%nat) (Mock.fresh (Some "ftdi:///1") None true true) in
  let run := _reconfigure_port Recorder.driver p Recorder.world0 in
  (exists calls,
     trace (snd run) = ([] ++ calls)%list /\ flowctrl_modes calls = ["hw"]) /\
  dev (snd run) =
    [SetBaudrate 7%nat 9600; SetLineProperty 7%nat 8 STOPBITS_ONE PARITY_NONE;
     SetFlowctrl 7%nat "hw"; SetDynamicLatency 7%nat 12 200 50].
Proof.
  intros p run.
  destruct (@flow_control_priority _ Recorder.driver p Recorder.world0
              (Ok tt) p (snd run) eq_refl)
    as ((calls & Ht & _ & Hok & _) & Hdev).
  split.
  - exists calls. split; [exact Ht | exact (Hok eq_refl)].
  - destruct (Hdev 7%nat [SetBaudrate 7%nat 9600]
                [SetBaudrate 7%nat 9600;
                 SetLineProperty 7%nat 8 STOPBITS_ONE PARITY_NONE]
                (Ok tt)
                [SetBaudrate 7%nat 9600;
                 SetLineProperty 7%nat 8 STOPBITS_ONE PARITY_NONE;
                 SetFlowctrl 7%nat "hw"]
                eq_refl eq_refl eq_refl eq_refl)
      as (rl & d4 & Hlat & [Hd | (re & Herr)]).
    + injection Hlat as _ Hd4. exact (eq_trans Hd (eq_sym Hd4)).
    + injection Herr as _ Hd5. injection Hlat as _ Hd4.
      exact (eq_trans (eq_sym Hd5) (eq_sym Hd4)).
Defined.


(** ** Failures while opening *)

Section OpenFailures.

Variable D : Type.
Variable drv : Driver D.

(** A failing push ends the body of the outer [try] with the exception the
    driver raised. *)
Lemma body_push_fails p h d ex d' made (w : World D) :
  PushFails drv p h d ex d' made ->
  udev p = Dev h -> dev w = d ->
  exists w',
    _reconfigure_port_body drv p w = (Raise ex, p, w') /\
    dev w' = d' /\ trace w' = (trace w ++ made)%list.
Proof.
  intros HF Hu Hd. subst d.
  unfold _reconfigure_port_body, bind, get_attr.
  rewrite (udev_method_run _ _ _ Hu). cbv beta iota.
  destruct HF as [Hb | d2 Hb Hl | d2 d3 Hb Hl Hf].
  - erewrite invoke_run by (simpl; exact Hb). cbv beta iota.
    eexists; split; [reflexivity | split; reflexivity].
  - erewrite invoke_run by (simpl; exact Hb). cbv beta iota.
    rewrite (udev_method_run _ _ _ Hu). cbv beta iota.
    erewrite invoke_run by (simpl; exact Hl). cbv beta iota.
    eexists; split; [reflexivity | split; [reflexivity | ] ].
    simpl. rewrite <- app_assoc. reflexivity.
  - erewrite invoke_run by (simpl; exact Hb). cbv beta iota.
    rewrite (udev_method_run _ _ _ Hu). cbv beta iota.
    erewrite invoke_run by (simpl; exact Hl). cbv beta iota.
    rewrite (udev_method_run _ _ _ Hu). cbv beta iota.
    erewrite invoke_run by (simpl; exact Hf). cbv beta iota.
    eexists; split; [reflexivity | split; [reflexivity | ] ].
    simpl. rewrite <- !app_assoc. reflexivity.
Qed.

(** A failing push makes the whole reconfiguration raise, whatever the class
    of the exception and whatever [get_error_string] does. *)
Lemma reconfigure_push_fails p h d ex d' made (w : World D) :
  PushFails drv p h d ex d' made ->
  udev p = Dev h -> dev w = d ->
  exists e w', _reconfigure_port drv p w = (Raise e, p, w').
Proof.
  intros HF Hu Hd.
  destruct (body_push_fails w HF Hu Hd) as (w1 & Hbody & _ & _).
  unfold _reconfigure_port, try_except. rewrite Hbody.
  destruct (isinstance_IOError ex); [ | eauto].
  unfold bind. rewrite (udev_method_run _ _ _ Hu). cbv beta iota. unfold invoke.
  destruct (get_error_string drv h (dev w1)) as [[err|e'] d2]; unfold raise; simpl; eauto.
Qed.

(** The pushes read the settings only, which [open] does not assign. *)
Lemma push_fails_after_open p h d ex d' made b u :
  PushFails drv p h d ex d' made ->
  PushFails drv (set_is_open b (set_udev u p)) h d ex d' made.
Proof.
  intros [Hb | d2 Hb Hl | d2 d3 Hb Hl Hf].
  - exact (baudrate_fails drv (set_is_open b (set_udev u p)) h d Hb).
  - exact (line_property_fails drv (set_is_open b (set_udev u p)) h d Hb Hl).
  - exact (flowctrl_fails drv (set_is_open b (set_udev u p)) h d Hb Hl Hf).
Qed.

(** C10.  When the URL resolves to a handle and then one of the three
    configuration pushes fails, [open] raises, and the port it leaves behind
    is marked open and still holds the handle. *)
Theorem open_is_not_atomic p (w : World D) url h d1 ex d2 made :
  port p = Some url ->
  create_from_url drv url (dev w) = (Ok h, d1) ->
  PushFails drv p h d1 ex d2 made ->
  exists e p' w',
    open drv p w = (Raise e, p', w') /\
    is_open p' = true /\ udev p' = Dev h.
Proof.
  intros Hp Hc HF. rewrite (open_resolved drv p w Hp Hc).
  set (p0 := set_is_open true (set_udev (Dev h) p)).
  assert (HF0 : PushFails drv p0 h d1 ex d2 made)
    by (apply push_fails_after_open; exact HF).
  destruct (reconfigure_push_fails
              (mkWorld d1 (clock w + cost drv (CreateFromUrl url) (dev w))
                       (trace w ++ [CreateFromUrl url]))
              HF0 eq_refl eq_refl) as (e & w' & Hr).
  exists e, p0, w'. split; [exact Hr | split; reflexivity].
Qed.

(** C9.  On a backend without [set_dynamic_latency], once the URL resolves
    and the three pushes are accepted, the attempt to set the latency raises
    an [AttributeError] of its own, yet [open] returns: the port is open, the
    device is in the state the flow-control push left it in, and the calls
    made are the resolution and the three pushes. *)
Theorem open_without_dynamic_latency p (w : World D) url h d1 d2 d3 d4 :
  set_dynamic_latency drv = None ->
  port p = Some url ->
  create_from_url drv url (dev w) = (Ok h, d1) ->
  set_baudrate drv h (_baudrate p) d1 = (Ok tt, d2) ->
  set_line_property drv h (_bytesize p) (_stopbits p) (_parity p) d2
    = (Ok tt, d3) ->
  set_flowctrl drv h (flowctrl_mode p) d3 = (Ok tt, d4) ->
  exists w',
    open drv p w = (Ok tt, set_is_open true (set_udev (Dev h) p), w') /\
    dev w' = d4 /\
    trace w' =
      (trace w ++
       [CreateFromUrl url;
        SetBaudrate h (_baudrate p);
        SetLineProperty h (_bytesize p) (_stopbits p) (_parity p);
        SetFlowctrl h (flowctrl_mode p)])%list /\
    exists e,
      call_set_dynamic_latency drv (set_is_open true (set_udev (Dev h) p)) w'
        = (Raise e, set_is_open true (set_udev (Dev h) p), w') /\
      exc_class e = AttributeError.
Proof.
  intros Hnone Hp Hc Hb Hl Hf.
  rewrite (open_resolved drv p w Hp Hc).
  set (p0 := set_is_open true (set_udev (Dev h) p)).
  assert (Hu : udev p0 = Dev h) by reflexivity.
  change (flowctrl_mode p) with (flowctrl_mode p0) in *.
  change (_baudrate p) with (_baudrate p0) in *.
  change (_bytesize p) with (_bytesize p0) in *.
  change (_stopbits p) with (_stopbits p0) in *.
  change (_parity p) with (_parity p0) in *.
  unfold _reconfigure_port, _reconfigure_port_body, try_except, bind, get_attr,
    call_set_dynamic_latency.
  run_calls Hu.
  rewrite Hnone. unfold raise, ret. simpl.
  eexists. split; [reflexivity | ]. split; [reflexivity | ].
  split; [simpl; rewrite <- !app_assoc; reflexivity | ].
  eexists. split; reflexivity.
Qed.

End OpenFailures.

(** C10 on the scripted device that refuses the baud rate. *)
Lemma open_is_not_atomic_witness :
  exists e p' w',
    open (Mock.driver Mock.stalled) (Mock.fresh (Some "ftdi:///1") None false false)
         (Mock.world0 []) = (Raise e, p', w') /\
    is_open p' = true /\ udev p' = Dev 7%nat.
Proof.
  exact (@open_is_not_atomic _ (Mock.driver Mock.stalled)
           (Mock.fresh (Some "ftdi:///1") None false false) (Mock.world0 [])
           "ftdi:///1" 7%nat [] (mkExc IOError "UsbError: Pipe error") []
           _ eq_refl eq_refl
           (baudrate_fails (Mock.driver Mock.stalled)
              (Mock.fresh (Some "ftdi:///1") None false false) 7%nat [] eq_refl)).
Defined.

(** C9 on the scripted backend without [set_dynamic_latency]. *)
Lemma open_without_dynamic_latency_witness :
  let p := Mock.fresh (Some "ftdi:///1") None true false in
  exists w',
    open (Mock.driver Mock.legacy) p (Mock.world0 [])
      = (Ok tt, set_is_open true (set_udev (Dev 7%nat) p), w') /\
    trace w' =
      [CreateFromUrl "ftdi:///1"; SetBaudrate 7%nat 9600;
       SetLineProperty 7%nat 8 STOPBITS_ONE PARITY_NONE; SetFlowctrl 7%nat "hw"].
Proof.
  intros p.
  destruct (@open_without_dynamic_latency _ (Mock.driver Mock.legacy) p
              (Mock.world0 []) "ftdi:///1" 7%nat [] [] [] []
              eq_refl eq_refl eq_refl eq_refl eq_refl eq_refl)
    as (w' & Ho & _ & Ht & _).
  exists w'. split; [exact Ho | exact Ht].
Defined.

(** ** The class of the errors of [open] *)

Section ErrorKinds.

Variable D : Type.
Variable drv : Driver D.

(** C8, as amended.  Both failures are reported under the one class
    [SerialException]: [open] on a URL that fails to resolve with a
    [UsbToolsError] or an [IOError] raises
    ['Unable to open USB port <port>: <cause>'], and a reconfiguration in
    which a push fails with an [IOError] raises
    ['<cause> (<the device's error string>)'], at run time as well as from
    within [open].  The two differ in their text only. *)
Theorem failures_share_one_class p (w : World D) :
  (forall url ex d1,
     port p = Some url ->
     create_from_url drv url (dev w) = (Raise ex, d1) ->
     isinstance_UsbToolsError ex || isinstance_IOError ex = true ->
     exists w',
       open drv p w =
       (Raise (mkExc SerialException
                 ("Unable to open USB port " ++ url ++ ": " ++ exc_str ex)),
        p, w')) /\
  (forall h ex d2 made err d3,
     udev p = Dev h ->
     PushFails drv p h (dev w) ex d2 made ->
     isinstance_IOError ex = true ->
     get_error_string drv h d2 = (Ok err, d3) ->
     exists w',
       _reconfigure_port drv p w =
       (Raise (mkExc SerialException (exc_str ex ++ " (" ++ err ++ ")")),
        p, w')) /\
  (forall url h d1 ex d2 made err d3,
     port p = Some url ->
     create_from_url drv url (dev w) = (Ok h, d1) ->
     PushFails drv p h d1 ex d2 made ->
     isinstance_IOError ex = true ->
     get_error_string drv h d2 = (Ok err, d3) ->
     exists w',
       open drv p w =
       (Raise (mkExc SerialException (exc_str ex ++ " (" ++ err ++ ")")),
        set_is_open true (set_udev (Dev h) p), w')).
Proof.
  assert (Hrec : forall q (v : World D) h ex d2 made err d3,
            udev q = Dev h ->
            PushFails drv q h (dev v) ex d2 made ->
            isinstance_IOError ex = true ->
            get_error_string drv h d2 = (Ok err, d3) ->
            exists w',
              _reconfigure_port drv q v =
              (Raise (mkExc SerialException (exc_str ex ++ " (" ++ err ++ ")")),
               q, w')).
  { intros q v h ex d2 made err d3 Hu HF Hio Herr.
    destruct (body_push_fails v HF Hu eq_refl) as (w1 & Hbody & Hd & _).
    unfold _reconfigure_port, try_except. rewrite Hbody, Hio.
    unfold bind. rewrite <- Hd in Herr. run_calls Hu.
    unfold raise. eexists. reflexivity. }
  split; [ | split].
  - intros url ex d1 Hp Hc Hcatch.
    unfold open, bind, get_attr, try_except, invoke, raise, portstr.
    rewrite Hp, Hc, Hcatch. rewrite Hp. eexists. reflexivity.
  - intros h ex d2 made err d3. apply Hrec.
  - intros url h d1 ex d2 made err d3 Hp Hc HF Hio Herr.
    rewrite (open_resolved drv p w Hp Hc).
    exact (Hrec (set_is_open true (set_udev (Dev h) p))
             (mkWorld d1 (clock w + cost drv (CreateFromUrl url) (dev w))
                      (trace w ++ [CreateFromUrl url]))
             h ex d2 made err d3
             eq_refl (push_fails_after_open true (Dev h) HF) Hio Herr).
Qed.

End ErrorKinds.

(** C8 on the scripted devices: [open] on the unplugged one, a
    reconfiguration and an [open] on the stalled one. *)
Lemma failures_share_one_class_witness :
  let p := Mock.fresh (Some "ftdi:///1") None false false in
  (exists w',
     open (Mock.driver Mock.unplugged) p (Mock.world0 []) =
     (Raise (mkExc SerialException
               "Unable to open USB port ftdi:///1: No USB device matches URL"),
      p, w')) /\
  (exists w',
     _reconfigure_port (Mock.driver Mock.stalled) (Mock.opened None)
       (Mock.world0 []) =
     (Raise (mkExc SerialException
               "UsbError: Pipe error (usb_control_transfer failed)"),
      Mock.opened None, w')) /\
  (exists w',
     open (Mock.driver Mock.stalled) p (Mock.world0 []) =
     (Raise (mkExc SerialException
               "UsbError: Pipe error (usb_control_transfer failed)"),
      set_is_open true (set_udev (Dev 7%nat) p), w')).
Proof.
  intros p. split; [ | split].
  - exact (proj1 (@failures_share_one_class _ (Mock.driver Mock.unplugged)
                    p (Mock.world0 []))
             "ftdi:///1" (mkExc UsbToolsError "No USB device matches URL") []
             eq_refl eq_refl eq_refl).
  - exact (proj1 (proj2 (@failures_share_one_class _ (Mock.driver Mock.stalled)
                           (Mock.opened None) (Mock.world0 [])))
             7%nat (mkExc IOError "UsbError: Pipe error") [] _
             "usb_control_transfer failed" []
             eq_refl
             (baudrate_fails (Mock.driver Mock.stalled) (Mock.opened None)
                7%nat [] eq_refl)
             eq_refl eq_refl).
  - exact (proj2 (proj2 (@failures_share_one_class _ (Mock.driver Mock.stalled)
                           p (Mock.world0 [])))
             "ftdi:///1" 7%nat [] (mkExc IOError "UsbError: Pipe error") [] _
             "usb_control_transfer failed" []
             eq_refl eq_refl
             (baudrate_fails (Mock.driver Mock.stalled) p 7%nat [] eq_refl)
             eq_refl eq_refl).
Defined.

(** C8, as stated, fails: the error of [open] on the unplugged device and
    the error of a reconfiguration on the stalled one are both
    [SerialException]s. *)
Lemma error_kinds_coincide : ~ ErrorKindsDiffer.
Proof.
  intros H.
  refine (H _ _ (Mock.driver Mock.unplugged) (Mock.driver Mock.stalled)
            (Mock.fresh (Some "ftdi:///1") None false false) (Mock.world0 [])
            "ftdi:///1" (mkExc UsbToolsError "No USB device matches URL") []
            _ _ _
            (Mock.opened None) (Mock.world0 [])
            7%nat (mkExc IOError "UsbError: Pipe error") [] _
            _ _ _
            eq_refl eq_refl eq_refl eq_refl
            (baudrate_fails (Mock.driver Mock.stalled) (Mock.opened None)
               7%nat [] eq_refl)
            eq_refl eq_refl eq_refl).
Qed.

(** ** Reading *)

Section Reading.

Variable D : Type.
Variable drv : Driver D.

(** One turn of the loop of [read], for a poll that the device answers. *)
Lemma read_loop_poll fuel data start size p (w : World D) h buf d1 :
  udev p = Dev h ->
  read_data drv h size (dev w) = (Ok buf, d1) ->
  read_loop drv (S fuel) data start size p w =
  let w1 := polled drv h size d1 w in
  let again :=
    read_loop drv fuel (data ++ buf)%list start (size - Z.of_nat (List.length buf))
              p (slept drv w1) in
  if size - Z.of_nat (List.length buf) <=? 0 then Some (Ok (data ++ buf)%list, p, w1)
  else
    match _timeout p with
    | Some timeout =>
        if truthy buf then Some (Ok (data ++ buf)%list, p, w1)
        else if gt_float (clock w1 - start) timeout
             then Some (Ok (data ++ buf)%list, p, w1)
             else again
    | None => again
    end.
Proof.
  intros Hu Hr. cbn [read_loop]. unfold bind.
  rewrite (udev_method_run _ _ _ Hu). cbv beta iota.
  erewrite invoke_run by exact Hr. cbv beta iota.
  reflexivity.
Qed.

(** With a timeout the loop goes round only after an empty answer, so what
    [read] returns is the answer to its last poll. *)
Lemma read_loop_timeout_last_poll fuel start size p (w : World D) h timeout
    data p' w' :
  udev p = Dev h -> _timeout p = Some timeout ->
  read_loop drv fuel [] start size p w = Some (Ok data, p', w') ->
  exists w0 d1,
    read_data drv h size (dev w0) = (Ok data, d1) /\
    w' = polled drv h size d1 w0.
Proof.
  intros Hu Ht. revert w.
  induction fuel as [ | fuel IH]; intros w H; [discriminate H | ].
  destruct (read_data drv h size (dev w)) as [[buf | e] d1] eqn:Hr.
  - rewrite (read_loop_poll fuel [] start size p w Hu Hr) in H.
    cbv zeta in H. rewrite Ht in H.
    destruct (size - Z.of_nat (List.length buf) <=? 0);
      [injection H as <- _ <-; exists w, d1; split; [exact Hr | reflexivity] | ].
    destruct buf as [ | b buf]; cbn [truthy] in H;
      [ | injection H as <- _ <-; exists w, d1; split; [exact Hr | reflexivity]].
    destruct (gt_float (clock (polled drv h size d1 w) - start) timeout);
      [injection H as <- _ <-; exists w, d1; split; [exact Hr | reflexivity] | ].
    cbn [List.length Z.of_nat app] in H. rewrite Z.sub_0_r in H.
    exact (IH _ H).
  - cbn [read_loop] in H. unfold bind in H.
    rewrite (udev_method_run _ _ _ Hu) in H. cbv beta iota in H.
    erewrite invoke_run in H by exact Hr. discriminate H.
Qed.

(** C2.  With a timeout set, a poll that the device answers with a non-empty
    chunk ends the loop at once: no sleep, no further poll, and the result is
    what had been accumulated followed by that chunk, however short.  For the
    first poll of [read] the result is the chunk itself; and whatever [read]
    returns under a timeout is the answer to its last poll alone. *)
Theorem read_returns_first_chunk p (w : World D) h timeout size buf d1 :
  udev p = Dev h ->
  _timeout p = Some timeout ->
  read_data drv h size (dev w) = (Ok buf, d1) ->
  buf <> [] ->
  (forall fuel data start,
     read_loop drv (S fuel) data start size p w
     = Some (Ok (data ++ buf)%list, p, polled drv h size d1 w)) /\
  (forall fuel,
     read drv (S fuel) size p w = Some (Ok buf, p, polled drv h size d1 w)) /\
  (forall fuel size' w0 data p' w',
     read drv fuel size' p w0 = Some (Ok data, p', w') ->
     exists w1 d2,
       read_data drv h size' (dev w1) = (Ok data, d2) /\
       w' = polled drv h size' d2 w1).
Proof.
  intros Hu Ht Hr Hne.
  assert (Hloop : forall fuel data start,
             read_loop drv (S fuel) data start size p w
             = Some (Ok (data ++ buf)%list, p, polled drv h size d1 w)).
  { intros fuel data start.
    rewrite (read_loop_poll fuel data start size p w Hu Hr).
    cbv zeta. rewrite Ht.
    destruct buf as [ | b buf]; [contradiction Hne; reflexivity | ].
    cbn [truthy].
    destruct (size - Z.of_nat (List.length (b :: buf)) <=? 0); reflexivity. }
  split; [exact Hloop | split].
  - intros fuel. unfold read. exact (Hloop fuel [] (clock w)).
  - intros fuel size' w0 data p' w' H.
    exact (read_loop_timeout_last_poll fuel (clock w0) size' p w0 Hu Ht H).
Qed.

(** More turns than needed change nothing. *)
Lemma read_loop_more_fuel fuel fuel' data start size p (w : World D) r :
  read_loop drv fuel data start size p w = Some r ->
  (fuel <= fuel')%nat ->
  read_loop drv fuel' data start size p w = Some r.
Proof.
  revert fuel' data size p w.
  induction fuel as [ | fuel IH]; intros fuel' data size p w H Hle;
    [discriminate H | ].
  destruct fuel' as [ | fuel']; [lia | ].
  cbn [read_loop] in *.
  destruct ((h <- udev_method "read_data";;
             invoke drv (ReadData h size) (read_data drv h size)) p w)
    as [[[buf | e] p1] w1]; [ | exact H].
  cbv zeta in *. unfold sleep in *.
  destruct (size - Z.of_nat (List.length buf) <=? 0); [exact H | ].
  destruct (_timeout p1) as [timeout | ].
  - destruct (truthy buf); [exact H | ].
    destruct (gt_float (clock w1 - start) timeout); [exact H | ].
    apply IH; [exact H | lia].
  - apply IH; [exact H | lia].
Qed.




Lemma total_cons (c : bytes) (rest : list bytes) :
  total (c :: rest) = Z.of_nat (List.length c) + total rest.
Proof.
  unfold total. cbn [List.concat]. rewrite length_app. lia.
Qed.

(** A device that keeps to the requested sizes never supplies too much. *)
Lemma supplies_at_most h chunks :
  forall size (d : D), supplies drv h size d chunks -> chunks <> [] ->
  total chunks <= size.
Proof.
  induction chunks as [ | c rest IH]; intros size d Hs Hne;
    [contradiction Hne; reflexivity | ].
  destruct Hs as (d1 & _ & Hle & Hrest). rewrite total_cons.
  destruct rest as [ | c2 rest'].
  - unfold total. cbn. lia.
  - specialize (IH _ _ Hrest). assert (c2 :: rest' <> []) by discriminate.
    specialize (IH H). lia.
Qed.

(** Without a timeout the loop takes one turn per chunk and stops at the
    first turn at which nothing is missing any more. *)
Lemma read_loop_supplied p h start :
  udev p = Dev h -> _timeout p = None ->
  forall chunks data size (w : World D),
    supplies drv h size (dev w) chunks ->
    chunks <> [] ->
    size <= total chunks ->
    (forall k, (0 < k < List.length chunks)%nat -> total (firstn k chunks) < size) ->
    (exists w',
       read_loop drv (List.length chunks) data start size p w
       = Some (Ok (data ++ List.concat chunks)%list, p, w')) /\
    (forall fuel, (fuel < List.length chunks)%nat ->
       read_loop drv fuel data start size p w = None).
Proof.
  intros Hu Ht.
  induction chunks as [ | c rest IH]; intros data size w Hs Hne Htot Hpre;
    [contradiction Hne; reflexivity | ].
  destruct Hs as (d1 & Hr & Hle & Hrest).
  rewrite total_cons in Htot.
  destruct rest as [ | c2 rest'].
  - split.
    + cbn [List.length]. rewrite (read_loop_poll 0 data start size p w Hu Hr).
      cbv zeta. unfold total in Htot. cbn in Htot.
      assert (Hz : (size - Z.of_nat (List.length c) <=? 0) = true)
        by (apply Z.leb_le; lia).
      rewrite Hz. cbn [List.concat]. rewrite app_nil_r. eauto.
    + intros fuel Hf. cbn [List.length] in Hf.
      assert (fuel = 0%nat) by lia. subst fuel. reflexivity.
  - assert (Hfirst : Z.of_nat (List.length c) < size).
    { specialize (Hpre 1%nat). cbn [List.length firstn] in Hpre.
      unfold total in Hpre. cbn [List.concat] in Hpre.
      rewrite app_nil_r in Hpre. apply Hpre. lia. }
    assert (Hz : (size - Z.of_nat (List.length c) <=? 0) = false)
      by (apply Z.leb_gt; lia).
    assert (Hpre' : forall k, (0 < k < List.length (c2 :: rest'))%nat ->
              total (firstn k (c2 :: rest')) < size - Z.of_nat (List.length c)).
    { intros k Hk. specialize (Hpre (S k)).
      cbn [firstn] in Hpre. rewrite total_cons in Hpre.
      cbn [List.length] in Hpre, Hk. assert (Hk' : (0 < S k < S (S (List.length rest')))%nat) by lia.
      specialize (Hpre Hk'). lia. }
    destruct (IH (data ++ c)%list (size - Z.of_nat (List.length c))
                 (slept drv (polled drv h size d1 w)) Hrest
                 ltac:(discriminate) ltac:(lia) Hpre')
      as ((w' & Hrun) & Hnone).
    split.
    + exists w'. change (List.length (c :: c2 :: rest')) with (S (List.length (c2 :: rest'))).
      rewrite (read_loop_poll _ data start size p w Hu Hr).
      cbv zeta. rewrite Hz, Ht, Hrun.
      cbn [List.concat]. rewrite <- app_assoc. reflexivity.
    + intros [ | fuel] Hf; [reflexivity | ].
      rewrite (read_loop_poll _ data start size p w Hu Hr).
      cbv zeta. rewrite Hz, Ht. apply Hnone.
      cbn [List.length] in *. lia.
Qed.

(** C1.  With no timeout set, let the device answer the successive polls of
    [read(size)] with the chunks [chunks], of any sizes, empty ones included,
    but each within what was asked for, and let the last of them be the first
    with which [size] bytes have been supplied in total.  Then [read] takes
    exactly one turn of its loop per chunk (with fewer it has not returned
    yet) and returns the chunks put together, which are exactly [size]
    bytes. *)
Theorem read_blocks_until_size p (w : World D) h size chunks :
  udev p = Dev h ->
  _timeout p = None ->
  0 <= size ->
  supplies drv h size (dev w) chunks ->
  chunks <> [] ->
  size <= total chunks ->
  (forall k, (0 < k < List.length chunks)%nat -> total (firstn k chunks) < size) ->
  exists w',
    (forall fuel, (List.length chunks <= fuel)%nat ->
       read drv fuel size p w = Some (Ok (List.concat chunks), p, w')) /\
    (forall fuel, (fuel < List.length chunks)%nat ->
       read drv fuel size p w = None) /\
    Z.of_nat (List.length (List.concat chunks)) = size.
Proof.
  intros Hu Ht Hsize Hs Hne Htot Hpre.
  destruct (@read_loop_supplied p h (clock w) Hu Ht chunks [] size w
              Hs Hne Htot Hpre) as ((w' & Hrun) & Hnone).
  exists w'. split; [ | split].
  - intros fuel Hle. unfold read.
    exact (read_loop_more_fuel _ _ _ _ _ Hrun Hle).
  - intros fuel Hlt. unfold read. exact (Hnone fuel Hlt).
  - pose proof (@supplies_at_most h chunks size (dev w) Hs Hne) as Hmost.
    unfold total in *. lia.
Qed.

End Reading.

(** C1 on the scripted device: four bytes wanted, delivered as two bytes,
    nothing, two bytes. *)
Lemma read_blocks_until_size_witness :
  exists w',
    read (Mock.driver Mock.healthy) 3 4 (Mock.opened None)
         (Mock.world0 [Mock.b "AB"; []; Mock.b "CD"])
      = Some (Ok (Mock.b "ABCD"), Mock.opened None, w') /\
    read (Mock.driver Mock.healthy) 2 4 (Mock.opened None)
         (Mock.world0 [Mock.b "AB"; []; Mock.b "CD"]) = None.
Proof.
  destruct (@read_blocks_until_size _ (Mock.driver Mock.healthy)
              (Mock.opened None) (Mock.world0 [Mock.b "AB"; []; Mock.b "CD"])
              7%nat 4 [Mock.b "AB"; []; Mock.b "CD"] eq_refl eq_refl)
    as (w' & Hrun & Hnone & _).
  - lia.
  - cbn. eexists. split; [reflexivity | split; [lia | ] ].
    eexists. split; [reflexivity | split; [lia | ] ].
    eexists. split; [reflexivity | split; [lia | exact I] ].
  - discriminate.
  - cbn. lia.
  - intros [ | [ | [ | k] ] ] Hk; cbn in *; lia.
  - exists w'. split; [exact (Hrun 3%nat (le_n 3)) | exact (Hnone 2%nat (le_n 3))].
Defined.

(** The example of the specification: chunks [AB] then [CD], [read(4)]. *)
Example read_ABCD :
  option_map (fun r => fst (fst r))
    (read (Mock.driver Mock.healthy) 2 4 (Mock.opened None)
          (Mock.world0 [Mock.b "AB"; Mock.b "CD"]))
  = Some (Ok (Mock.b "ABCD")).
Proof. reflexivity. Qed.

(** C2 on the scripted device: four bytes wanted, two there, half a second
    of timeout. *)
Lemma read_returns_first_chunk_witness :
  read (Mock.driver Mock.healthy) 1 4 (Mock.opened (Some (Finite (1 # 2))))
       (Mock.world0 [Mock.b "AB"; Mock.b "CD"])
  = Some (Ok (Mock.b "AB"), Mock.opened (Some (Finite (1 # 2))),
          mkWorld [Mock.b "CD"] (0 + 0)%Q [ReadData 7%nat 4]).
Proof.
  refine (proj1 (proj2 (@read_returns_first_chunk _ (Mock.driver Mock.healthy)
            (Mock.opened (Some (Finite (1 # 2))))
            (Mock.world0 [Mock.b "AB"; Mock.b "CD"])
            7%nat (Finite (1 # 2)) 4 (Mock.b "AB") [Mock.b "CD"]
            eq_refl eq_refl eq_refl _)) 0%nat).
  discriminate.
Defined.




(** * Further properties of the methods *)

(** ** Opening and closing *)

Section Lifecycle.

Variable D : Type.
Variable drv : Driver D.

(** A failure of [open] up to and including the resolution of the URL leaves
    the port exactly as it was: without a configured port nothing is called
    at all, and when [create_from_url] raises, that call is the only one
    made.  An exception that is neither a [UsbToolsError] nor an [IOError]
    passes through unchanged. *)
Theorem open_failure_before_resolution p (w : World D) :
  (port p = None ->
   open drv p w =
   (Raise (mkExc SerialException "Port must be configured before use."), p, w)) /\
  (forall url ex d1,
     port p = Some url ->
     create_from_url drv url (dev w) = (Raise ex, d1) ->
     exists e,
       open drv p w =
       (Raise e, p,
        mkWorld d1 (clock w + cost drv (CreateFromUrl url) (dev w))
                (trace w ++ [CreateFromUrl url])) /\
       (isinstance_UsbToolsError ex || isinstance_IOError ex = false -> e = ex)).
Proof.
  split.
  - intros Hp. unfold open, bind, get_attr, raise. rewrite Hp. reflexivity.
  - intros url ex d1 Hp Hc.
    unfold open, bind, get_attr, try_except, invoke, raise.
    rewrite Hp, Hc.
    destruct (isinstance_UsbToolsError ex || isinstance_IOError ex);
      eexists; (split; [reflexivity | ]); congruence.
Qed.

(** [open] never closes a device: whatever its outcome, no call it makes is
    a [close] of a handle.  On a port that already holds a handle, the handle
    is overwritten by the newly resolved one, whether or not the
    reconfiguration that follows succeeds. *)
Theorem open_never_closes p (w : World D) r p' w' :
  open drv p w = (r, p', w') ->
  (exists calls,
     trace w' = (trace w ++ calls)%list /\
     forall h, ~ In (DevClose h) calls) /\
  (forall url h1 d1,
     port p = Some url ->
     create_from_url drv url (dev w) = (Ok h1, d1) ->
     udev p' = Dev h1).
Proof.
  intros H. split.
  - unfold_methods H.
    repeat step_in H; inversion H; subst; clear H; simpl;
      eexists; (split; [rewrite <- ?app_assoc; simpl; try reflexivity;
                        symmetry; apply app_nil_r | ]);
      intros h0 Hin; simpl in Hin;
      repeat (destruct Hin as [Hin | Hin]; [discriminate Hin | ]);
      exact Hin.
  - intros url h1 d1 Hp Hc. rewrite (open_resolved drv p w Hp Hc) in H.
    apply reconfigure_keeps_port in H. subst p'. reflexivity.
Qed.

(** [open] followed by [close]: when the device lets go of the handle, the
    port is back to closed with no handle, every setting is what it was
    before [open], and the handle's [close] is the one call added. *)
Theorem open_then_close p (w : World D) p1 w1 :
  open drv p w = (Ok tt, p1, w1) ->
  exists h,
    udev p1 = Dev h /\
    forall d',
      dev_close drv h (dev w1) = (Ok tt, d') ->
      close drv p1 w1 =
      (Ok tt, set_udev PyNone (set_is_open false p),
       mkWorld d' (clock w1 + cost drv (DevClose h) (dev w1))
               (trace w1 ++ [DevClose h])).
Proof.
  intros H.
  destruct (port p) as [url | ] eqn:Hp;
    [ | unfold open, bind, get_attr in H; rewrite Hp in H; discriminate H].
  destruct (create_from_url drv url (dev w)) as [[h | ex] d1] eqn:Hc.
  - rewrite (open_resolved drv p w Hp Hc) in H.
    apply reconfigure_keeps_port in H. subst p1.
    exists h. split; [reflexivity | ].
    intros d' Hclose.
    unfold close, _set_open_state, bind, assign, get_attr. simpl.
    unfold invoke. rewrite Hclose. reflexivity.
  - unfold open, bind, get_attr, try_except, invoke, raise in H.
    rewrite Hp, Hc in H.
    destruct (isinstance_UsbToolsError ex || isinstance_IOError ex);
      discriminate H.
Qed.

(** When the device's own [close] raises, [close] passes the exception on:
    the port is marked not open but keeps the handle, so that the next
    [close] calls the device's [close] again. *)
Theorem close_failure_keeps_handle p (w : World D) h e d' :
  udev p = Dev h ->
  dev_close drv h (dev w) = (Raise e, d') ->
  let w1 := mkWorld d' (clock w + cost drv (DevClose h) (dev w))
                    (trace w ++ [DevClose h]) in
  close drv p w = (Raise e, set_is_open false p, w1) /\
  udev (set_is_open false p) = Dev h /\
  trace (snd (close drv (set_is_open false p) w1))
    = (trace w ++ [DevClose h; DevClose h])%list.
Proof.
  intros Hu Hc w1. split; [ | split].
  - unfold close, _set_open_state, bind, assign, get_attr. simpl.
    rewrite Hu. unfold invoke. rewrite Hc. reflexivity.
  - exact Hu.
  - unfold close, _set_open_state, bind, assign, get_attr. simpl.
    rewrite Hu. unfold invoke. simpl.
    destruct (dev_close drv h d') as [[[] | e2] d2]; simpl;
      rewrite <- app_assoc; reflexivity.
Qed.

(** A port that holds no device object, because it was never opened (no
    [udev] attribute) or because it was closed ([udev] is [None]), makes
    [read] and [_reconfigure_port] raise an [AttributeError]: no call is
    made, nothing changes, and the error is not turned into a
    [SerialException].  [close] before the first [open] raises likewise. *)
Theorem methods_need_a_device p (w : World D) :
  (forall h, udev p <> Dev h) ->
  (forall fuel size,
     exists e,
       read drv (S fuel) size p w = Some (Raise e, p, w) /\
       exc_class e = AttributeError) /\
  (exists e,
     _reconfigure_port drv p w = (Raise e, p, w) /\
     exc_class e = AttributeError) /\
  (udev p = Unset ->
   exists e,
     close drv p w = (Raise e, set_is_open false p, w) /\
     exc_class e = AttributeError).
Proof.
  intros Hno. split; [ | split].
  - intros fuel size. unfold read. cbn [read_loop]. unfold bind, udev_method.
    destruct (udev p) as [ | | h]; [ | | contradiction (Hno h); reflexivity];
      eexists; split; reflexivity.
  - unfold _reconfigure_port, _reconfigure_port_body, try_except, bind,
      udev_method.
    destruct (udev p) as [ | | h]; [ | | contradiction (Hno h); reflexivity];
      cbn; eexists; split; reflexivity.
  - intros Hu. unfold close, _set_open_state, bind, assign, get_attr, raise.
    simpl. rewrite Hu. eexists; split; reflexivity.
Qed.

End Lifecycle.

(** ** The error paths of a reconfiguration *)

Section ReconfigureErrors.

Variable D : Type.
Variable drv : Driver D.

(** A push that fails with anything but an [IOError] is not translated: the
    driver's exception leaves [_reconfigure_port] as it is, and the device is
    not asked for its error string. *)
Theorem reconfigure_passes_other_errors p (w : World D) h ex d' made :
  udev p = Dev h ->
  PushFails drv p h (dev w) ex d' made ->
  isinstance_IOError ex = false ->
  exists w',
    _reconfigure_port drv p w = (Raise ex, p, w') /\
    dev w' = d' /\ trace w' = (trace w ++ made)%list.
Proof.
  intros Hu HF Hio.
  destruct (body_push_fails w HF Hu eq_refl) as (w1 & Hbody & Hd & Ht).
  exists w1. unfold _reconfigure_port, try_except. rewrite Hbody, Hio.
  auto.
Qed.

(** When a push fails with an [IOError] and [get_error_string] raises in its
    turn, it is the second exception that leaves [_reconfigure_port]: the
    cause of the failure is lost. *)
Theorem reconfigure_error_string_failure p (w : World D) h ex d' made e2 d2 :
  udev p = Dev h ->
  PushFails drv p h (dev w) ex d' made ->
  isinstance_IOError ex = true ->
  get_error_string drv h d' = (Raise e2, d2) ->
  exists w',
    _reconfigure_port drv p w = (Raise e2, p, w') /\
    trace w' = (trace w ++ made ++ [GetErrorString h])%list.
Proof.
  intros Hu HF Hio Herr.
  destruct (body_push_fails w HF Hu eq_refl) as (w1 & Hbody & Hd & Ht).
  unfold _reconfigure_port, try_except. rewrite Hbody, Hio.
  unfold bind. rewrite <- Hd in Herr. run_calls Hu.
  eexists. split; [reflexivity | ].
  cbn [trace]. rewrite Ht, <- app_assoc. reflexivity.
Qed.

(** Only an [AttributeError] of the latency call is swallowed.  When the
    backend has the method and the call raises after the three pushes were
    accepted, an [AttributeError] still lets the reconfiguration return, but
    an [IOError] makes it fail with a [SerialException] like a failed push. *)
Theorem latency_failure_modes p (w : World D) h d1 d2 d3 f ex d4 :
  udev p = Dev h ->
  set_baudrate drv h (_baudrate p) (dev w) = (Ok tt, d1) ->
  set_line_property drv h (_bytesize p) (_stopbits p) (_parity p) d1
    = (Ok tt, d2) ->
  set_flowctrl drv h (flowctrl_mode p) d2 = (Ok tt, d3) ->
  set_dynamic_latency drv = Some f ->
  f h 12 200 50 d3 = (Raise ex, d4) ->
  (isinstance_AttributeError ex = true ->
   exists w', _reconfigure_port drv p w = (Ok tt, p, w') /\ dev w' = d4) /\
  (isinstance_IOError ex = true ->
   forall err d5,
     get_error_string drv h d4 = (Ok err, d5) ->
     exists w',
       _reconfigure_port drv p w =
       (Raise (mkExc SerialException (exc_str ex ++ " (" ++ err ++ ")")), p, w')).
Proof.
  intros Hu Hb Hl Hf Hsome Hlat.
  assert (Hbody : forall r,
            (if isinstance_AttributeError ex then Ok tt else Raise ex) = r ->
            exists w1,
              _reconfigure_port_body drv p w = (r, p, w1) /\ dev w1 = d4).
  { intros r Hr.
    unfold _reconfigure_port_body, try_except, bind, get_attr,
      call_set_dynamic_latency.
    run_calls Hu. rewrite Hsome. unfold bind. run_calls Hu. unfold ret.
    destruct (isinstance_AttributeError ex); subst r;
      eexists; split; reflexivity. }
  split.
  - intros Hattr. rewrite Hattr in Hbody.
    destruct (Hbody _ eq_refl) as (w1 & Hrun & Hd).
    exists w1. unfold _reconfigure_port, try_except. rewrite Hrun. auto.
  - intros Hio err d5 Herr.
    assert (Hattr : isinstance_AttributeError ex = false).
    { unfold isinstance_IOError in Hio. unfold isinstance_AttributeError.
      destruct (exc_class ex); try reflexivity; discriminate Hio. }
    rewrite Hattr in Hbody.
    destruct (Hbody _ eq_refl) as (w1 & Hrun & Hd).
    unfold _reconfigure_port, try_except. rewrite Hrun, Hio.
    unfold bind. rewrite <- Hd in Herr. run_calls Hu.
    unfold raise. eexists. reflexivity.
Qed.

(** Tries [n] for the number of pushes made. *)
Ltac call_order_with n :=
  exists n; eexists;
  split; [rewrite <- ?app_assoc; simpl; reflexivity | ];
  split; [lia | ];
  split; [solve [auto] | ];
  let Hr := fresh "Hr" in
  intros Hr; first [discriminate Hr | split; [lia | reflexivity] ].

(** The calls of a reconfiguration keep their order whatever happens: they
    are the first [n] of baud rate, line property, flow control and latency,
    with [n] at least 1, followed at most by one request for the error
    string, which is then the last call; a reconfiguration that returns has
    made the first three at least and has not asked for the error string. *)
Theorem reconfigure_call_order p (w : World D) h r p' w' :
  udev p = Dev h ->
  _reconfigure_port drv p w = (r, p', w') ->
  exists n tail,
    trace w' =
      (trace w ++
       firstn n [SetBaudrate h (_baudrate p);
                 SetLineProperty h (_bytesize p) (_stopbits p) (_parity p);
                 SetFlowctrl h (flowctrl_mode p);
                 SetDynamicLatency h 12 200 50] ++ tail)%list /\
    (1 <= n)%nat /\
    (tail = [] \/ tail = [GetErrorString h]) /\
    (r = Ok tt -> (3 <= n)%nat /\ tail = []).
Proof.
  intros Hu H. unfold_methods H.
  destruct p as [pt io u br bs sb pa tmo rc xo]; simpl in *. subst u.
  simpl in H.
  repeat step_in H; inversion H; subst; clear H;
    first [ solve [call_order_with 1%nat] | solve [call_order_with 2%nat]
          | solve [call_order_with 3%nat] | solve [call_order_with 4%nat] ].
Qed.

End ReconfigureErrors.

(** ** More about [read] *)

Section ReadingMore.

Variable D : Type.
Variable drv : Driver D.

(** One turn of the loop of [read], for a poll on which the driver raises. *)
Lemma read_loop_poll_raises fuel data start size p (w : World D) h e d1 :
  udev p = Dev h ->
  read_data drv h size (dev w) = (Raise e, d1) ->
  read_loop drv (S fuel) data start size p w
  = Some (Raise e, p, polled drv h size d1 w).
Proof.
  intros Hu Hr. cbn [read_loop]. unfold bind.
  rewrite (udev_method_run _ _ _ Hu). cbv beta iota.
  erewrite invoke_run by exact Hr. reflexivity.
Qed.

(** The case analysis of one turn of the loop on an open port. *)
Ltac read_turn H Hu h fuel data start size p w d1 buf e0 Hr :=
  destruct (read_data drv h size (dev w)) as [[buf | e0] d1] eqn:Hr;
  [ rewrite (read_loop_poll drv fuel data start size p w Hu Hr) in H;
    cbv zeta in H
  | rewrite (read_loop_poll_raises fuel data start size p w Hu Hr) in H ].

(** On an open port the only exceptions that [read] raises are those of the
    driver's [read_data], as they are: the exception of the last poll, not
    wrapped in a [SerialException], and without the bytes collected so far. *)
Theorem read_raises_driver_errors fuel size p (w : World D) h e p' w' :
  udev p = Dev h ->
  read drv fuel size p w = Some (Raise e, p', w') ->
  exists w0 sz d1,
    read_data drv h sz (dev w0) = (Raise e, d1) /\
    w' = polled drv h sz d1 w0 /\ p' = p.
Proof.
  intros Hu. unfold read. generalize (clock w) as start.
  generalize (@nil Byte.byte) as data. revert size w.
  induction fuel as [ | fuel IH]; intros size w data start H;
    [discriminate H | ].
  read_turn H Hu h fuel data start size p w d1 buf e0 Hr.
  - destruct (size - Z.of_nat (List.length buf) <=? 0); [discriminate H | ].
    destruct (_timeout p) as [timeout | ].
    + destruct (truthy buf); [discriminate H | ].
      destruct (gt_float (clock (polled drv h size d1 w) - start) timeout);
        [discriminate H | ].
      exact (IH _ _ _ _ H).
    + exact (IH _ _ _ _ H).
  - injection H as <- <- <-. exists w, size, d1. auto.
Qed.

(** If the driver never returns more than it is asked for, [read] never
    returns more than [size] bytes, with or without a timeout. *)
Theorem read_never_exceeds_size fuel size p (w : World D) h data p' w' :
  udev p = Dev h ->
  (forall sz d c d',
     0 <= sz -> read_data drv h sz d = (Ok c, d') ->
     Z.of_nat (List.length c) <= sz) ->
  0 <= size ->
  read drv fuel size p w = Some (Ok data, p', w') ->
  Z.of_nat (List.length data) <= size.
Proof.
  intros Hu Hbound Hsize H.
  assert (Hloop : forall fuel acc start size (w : World D),
            0 <= size ->
            read_loop drv fuel acc start size p w = Some (Ok data, p', w') ->
            Z.of_nat (List.length data) <= Z.of_nat (List.length acc) + size).
  { clear H Hsize w fuel size.
    induction fuel as [ | fuel IH]; intros acc start size w Hsize H;
      [discriminate H | ].
    read_turn H Hu h fuel acc start size p w d1 buf e0 Hr; [ | discriminate H].
    pose proof (Hbound _ _ _ _ Hsize Hr) as Hb.
    assert (Hret : Some (Ok (acc ++ buf)%list, p, polled drv h size d1 w)
                   = Some (Ok data, p', w') ->
                   Z.of_nat (List.length data) <= Z.of_nat (List.length acc) + size).
    { intros Heq. injection Heq as <- _ _. rewrite length_app. lia. }
    assert (Hagain :
              read_loop drv fuel (acc ++ buf)%list start
                (size - Z.of_nat (List.length buf)) p
                (slept drv (polled drv h size d1 w)) = Some (Ok data, p', w') ->
              Z.of_nat (List.length data) <= Z.of_nat (List.length acc) + size).
    { intros Hrun. apply IH in Hrun; [ | lia]. rewrite length_app in Hrun. lia. }
    destruct (size - Z.of_nat (List.length buf) <=? 0); [exact (Hret H) | ].
    destruct (_timeout p) as [timeout | ]; [ | exact (Hagain H)].
    destruct (truthy buf); [exact (Hret H) | ].
    destruct (gt_float (clock (polled drv h size d1 w) - start) timeout);
      [exact (Hret H) | exact (Hagain H)]. }
  unfold read in H. apply Hloop in H; [ | exact Hsize]. cbn in H. lia.
Qed.

(** Without a timeout [read] never returns short: whatever it returns has at
    least [size] bytes. *)
Theorem read_without_timeout_never_short fuel size p (w : World D) h data p' w' :
  udev p = Dev h ->
  _timeout p = None ->
  read drv fuel size p w = Some (Ok data, p', w') ->
  size <= Z.of_nat (List.length data).
Proof.
  intros Hu Ht H.
  assert (Hloop : forall fuel acc start size (w : World D),
            read_loop drv fuel acc start size p w = Some (Ok data, p', w') ->
            Z.of_nat (List.length acc) + size <= Z.of_nat (List.length data)).
  { clear H w fuel size.
    induction fuel as [ | fuel IH]; intros acc start size w H;
      [discriminate H | ].
    read_turn H Hu h fuel acc start size p w d1 buf e0 Hr; [ | discriminate H].
    rewrite Ht in H.
    destruct (size - Z.of_nat (List.length buf) <=? 0) eqn:Hz.
    - injection H as <- _ _. apply Z.leb_le in Hz. rewrite length_app. lia.
    - apply IH in H. rewrite length_app in H. lia. }
  unfold read in H. apply Hloop in H. cbn in H. lia.
Qed.

(** With a timeout, a [read] of a positive [size] returns the empty byte
    string only when the test [ms > self._timeout] has succeeded on the time
    elapsed since it started: for a finite timeout, only when more than the
    timeout has elapsed (and never for an infinite or not-a-number one). *)
Theorem read_empty_means_timeout fuel size p (w : World D) h timeout p' w' :
  udev p = Dev h ->
  _timeout p = Some timeout ->
  0 < size ->
  read drv fuel size p w = Some (Ok [], p', w') ->
  gt_float (clock w' - clock w) timeout = true /\
  (forall t, timeout = Finite t -> (t < clock w' - clock w)%Q).
Proof.
  intros Hu Ht Hsize H.
  assert (Hgt : gt_float (clock w' - clock w) timeout = true).
  { revert H. unfold read. generalize (clock w) as start. revert w.
    induction fuel as [ | fuel IH]; intros w start H; [discriminate H | ].
    read_turn H Hu h fuel (@nil Byte.byte) start size p w d1 buf e0 Hr;
      [ | discriminate H].
    rewrite Ht in H. cbn [app] in H.
    destruct (size - Z.of_nat (List.length buf) <=? 0) eqn:Hz.
    - injection H as -> _ _. apply Z.leb_le in Hz. cbn in Hz. lia.
    - destruct buf as [ | b0 buf]; cbn [truthy] in H; [ | discriminate H].
      destruct (gt_float (clock (polled drv h size d1 w) - start) timeout)
        eqn:Hq.
      + injection H as _ <-. exact Hq.
      + cbn [List.length Z.of_nat] in H. rewrite Z.sub_0_r in H.
        exact (IH _ _ H). }
  split; [exact Hgt | ].
  intros t ->. cbn [gt_float] in Hgt.
  apply Qnot_le_lt. intros Hle. apply Qle_bool_iff in Hle.
  rewrite Hle in Hgt. discriminate Hgt.
Qed.

(** A [read] of zero or less polls the device all the same, once, and
    returns what that poll gives, with or without a timeout. *)
Theorem read_nonpositive_size_polls_once fuel size p (w : World D) h buf d1 :
  udev p = Dev h ->
  size <= 0 ->
  read_data drv h size (dev w) = (Ok buf, d1) ->
  read drv (S fuel) size p w = Some (Ok buf, p, polled drv h size d1 w).
Proof.
  intros Hu Hsize Hr. unfold read.
  rewrite (read_loop_poll drv fuel [] (clock w) size p w Hu Hr). cbv zeta.
  assert (Hz : (size - Z.of_nat (List.length buf) <=? 0) = true)
    by (apply Z.leb_le; lia).
  rewrite Hz. reflexivity.
Qed.

End ReadingMore.

(** ** The table of baud rates *)

(** The members of a [range] with a positive step. *)
Lemma range_In (start stop step x : Z) :
  0 < step ->
  In x (range start stop step) <->
  exists k, 0 <= k /\ x = start + k * step /\ x < stop.
Proof.
  intros Hstep. unfold range. rewrite in_map_iff. split.
  - intros (i & Hx & Hin). apply in_seq in Hin.
    exists (Z.of_nat i). split; [lia | ]. split; [lia | ].
    assert (Hq : Z.of_nat i + 1 <= (stop - start + step - 1) / step) by lia.
    pose proof (Z.mul_div_le (stop - start + step - 1) step Hstep) as Hm.
    nia.
  - intros (k & Hk & Hx & Hlt). exists (Z.to_nat k).
    split; [lia | ]. apply in_seq. split; [lia | ].
    assert (Hq : k + 1 <= (stop - start + step - 1) / step).
    { apply Z.div_le_lower_bound; [exact Hstep | nia]. }
    lia.
Qed.

Lemma insert_sorted_In (x y : Z) (l : list Z) :
  In y (insert_sorted x l) <-> y = x \/ In y l.
Proof.
  induction l as [ | z l IH]; cbn [insert_sorted].
  - cbn. intuition.
  - destruct (x <=? z); cbn [In]; [intuition | ].
    rewrite IH. intuition.
Qed.

Lemma sorted_In (y : Z) (l : list Z) : In y (sorted l) <-> In y l.
Proof.
  induction l as [ | x l IH]; cbn [sorted fold_right]; [reflexivity | ].
  rewrite insert_sorted_In. fold (sorted l). rewrite IH. cbn [In]. intuition.
Qed.

Lemma ascending_Sorted (l : list Z) :
  ascending l = true -> StronglySorted Z.lt l.
Proof.
  intros H. apply Sorted_StronglySorted; [exact Z.lt_trans | ].
  induction l as [ | x l IH]; [constructor | ].
  destruct l as [ | y l]; [repeat constructor | ].
  cbn [ascending] in H. apply andb_prop in H. destruct H as [Hxy Hrest].
  constructor; [exact (IH Hrest) | ].
  constructor. apply Z.ltb_lt. exact Hxy.
Qed.

(** [BAUDRATES] holds the six multiples of 9600 up to 57600, the eight
    multiples of 115200 up to 921600 and every multiple of 100000 from
    1000000 to 12900000, and nothing else; it is in strictly ascending order,
    so without duplicates, and has 134 entries. *)
Theorem BAUDRATES_members :
  (forall b,
     In b BAUDRATES <->
     (exists k, 1 <= k <= 6 /\ b = 9600 * k) \/
     (exists k, 1 <= k <= 8 /\ b = 115200 * k) \/
     (exists k, 10 <= k <= 129 /\ b = 100000 * k)) /\
  StronglySorted Z.lt BAUDRATES /\
  List.length BAUDRATES = 134%nat.
Proof.
  split; [ | split].
  - intros b. unfold BAUDRATES. rewrite sorted_In, !in_app_iff, in_map_iff.
    rewrite !range_In by lia. split.
    + intros [(x & Hb & Hx) | [(k & Hk & Hb & Hlt) | (k & Hk & Hb & Hlt)] ].
      * apply range_In in Hx; [ | lia]. destruct Hx as (k & Hk & Hx & Hlt).
        left. exists (k + 1). lia.
      * right. left. exists (k + 1). lia.
      * right. right. exists (k + 10). lia.
    + intros [(k & Hk & Hb) | [(k & Hk & Hb) | (k & Hk & Hb)] ].
      * left. exists (k - 1). split; [lia | ].
        apply range_In; [lia | ]. exists (k - 1). lia.
      * right. left. exists (k - 1). lia.
      * right. right. exists (k - 10). lia.
  - apply ascending_Sorted. vm_compute. reflexivity.
  - vm_compute. reflexivity.
Qed.

(** ** Sending a break *)

Section Break.

Variable D : Type.
Variable drv : Driver D.
Variable set_break : Handle -> bool -> D -> Result unit * D.
Variable set_break_cost : bool -> D -> Q.
Variable sleep_check : Q -> option Exc.

(** When both [set_break] calls are accepted and [time.sleep] accepts the
    duration, [send_break] asserts the break, sleeps, and releases it, in
    this order: the device goes through the assertion, then through
    [duration] seconds of sleep, then through the release, and the clock has
    advanced by the two calls and a sleep of [duration]. *)
Theorem send_break_holds_then_releases p (w : World D) h duration d1 d2 :
  udev p = Dev h ->
  sleep_check duration = None ->
  set_break h true (dev w) = (Ok tt, d1) ->
  set_break h false (elapse drv duration d1) = (Ok tt, d2) ->
  send_break drv set_break set_break_cost sleep_check duration p w =
  (Ok tt, p,
   mkWorld d2
     (clock w + set_break_cost true (dev w) + duration
      + cost drv (Sleep duration) d1
      + set_break_cost false (elapse drv duration d1))
     (trace w ++ [Sleep duration])).
Proof.
  intros Hu Hd Hon Hoff.
  unfold send_break, call_set_break, time_sleep, bind.
  rewrite (udev_method_run _ _ _ Hu). cbv beta iota. rewrite Hon.
  rewrite Hd. unfold sleep.
  rewrite (udev_method_run _ _ _ Hu). cbn [dev clock trace].
  rewrite Hoff. reflexivity.
Qed.

(** A duration that [time.sleep] refuses leaves the break asserted: the
    first [set_break] goes through, the sleep raises, that exception leaves
    [send_break], and the releasing [set_break] is never made, so the device
    stays as the assertion left it. *)
Theorem send_break_refused_duration p (w : World D) h duration e d1 :
  udev p = Dev h ->
  sleep_check duration = Some e ->
  set_break h true (dev w) = (Ok tt, d1) ->
  send_break drv set_break set_break_cost sleep_check duration p w =
  (Raise e, p,
   mkWorld d1 (clock w + set_break_cost true (dev w)) (trace w)).
Proof.
  intros Hu Hd Hon.
  unfold send_break, call_set_break, time_sleep, bind.
  rewrite (udev_method_run _ _ _ Hu). cbv beta iota. rewrite Hon.
  rewrite Hd. reflexivity.
Qed.

End Break.

(** ** The further properties on the scripted devices *)

Lemma open_failure_before_resolution_witness :
  open (Mock.driver Mock.healthy) (Mock.fresh None None false false)
       (Mock.world0 [])
  = (Raise (mkExc SerialException "Port must be configured before use."),
     Mock.fresh None None false false, Mock.world0 [])
  /\
  exists e,
    open (Mock.driver Mock.unplugged) (Mock.fresh (Some "ftdi:///1") None false false)
         (Mock.world0 [])
    = (Raise e, Mock.fresh (Some "ftdi:///1") None false false,
       mkWorld [] (0 + 0)%Q [CreateFromUrl "ftdi:///1"]).
Proof.
  split.
  - exact (proj1 (@open_failure_before_resolution _ (Mock.driver Mock.healthy)
                    (Mock.fresh None None false false) (Mock.world0 []))
             eq_refl).
  - destruct (proj2 (@open_failure_before_resolution _
                       (Mock.driver Mock.unplugged)
                       (Mock.fresh (Some "ftdi:///1") None false false)
                       (Mock.world0 []))
                "ftdi:///1" (mkExc UsbToolsError "No USB device matches URL")
                [] eq_refl eq_refl) as (e & Hrun & _).
    exists e. exact Hrun.
Defined.

(** Reopening an open port: handle 3 is replaced by handle 7, never closed. *)
Lemma open_never_closes_witness :
  let p := set_udev (Dev 3%nat) (Mock.fresh (Some "ftdi:///1") None false false) in
  let run := open (Mock.driver Mock.healthy) p (Mock.world0 []) in
  (exists calls,
     trace (snd run) = ([] ++ calls)%list /\
     forall h, ~ In (DevClose h) calls) /\
  udev (snd (fst run)) = Dev 7%nat.
Proof.
  intros p run.
  destruct (@open_never_closes _ (Mock.driver Mock.healthy) p (Mock.world0 [])
              (fst (fst run)) (snd (fst run)) (snd run) eq_refl)
    as (Hcalls & Hnew).
  split; [exact Hcalls | exact (Hnew "ftdi:///1" 7%nat [] eq_refl eq_refl)].
Defined.

Lemma open_then_close_witness :
  let p := Mock.fresh (Some "ftdi:///1") None false false in
  let run := open (Mock.driver Mock.healthy) p (Mock.world0 []) in
  fst (close (Mock.driver Mock.healthy) (snd (fst run)) (snd run))
  = (Ok tt, set_udev PyNone (set_is_open false p)).
Proof.
  intros p run.
  destruct (@open_then_close _ (Mock.driver Mock.healthy) p (Mock.world0 [])
              (snd (fst run)) (snd run) eq_refl) as (h & Hu & Hclose).
  injection Hu as <-.
  rewrite (Hclose [] eq_refl). reflexivity.
Defined.

Lemma close_failure_keeps_handle_witness :
  let drv := Mock.driver
               (Mock.mkScript (Ok 7%nat) (Raise (mkExc IOError "release failed"))
                  (Ok tt) (Ok tt) (Ok tt) true "no error" true) in
  close drv (Mock.opened None) (Mock.world0 [])
  = (Raise (mkExc IOError "release failed"),
     set_is_open false (Mock.opened None),
     mkWorld [] (0 + 0)%Q [DevClose 7%nat]) /\
  trace (snd (close drv (set_is_open false (Mock.opened None))
                (mkWorld [] (0 + 0)%Q [DevClose 7%nat])))
  = [DevClose 7%nat; DevClose 7%nat].
Proof.
  intros drv.
  destruct (@close_failure_keeps_handle _ drv (Mock.opened None)
              (Mock.world0 []) 7%nat (mkExc IOError "release failed") []
              eq_refl eq_refl) as (Hrun & _ & Hagain).
  split; [exact Hrun | exact Hagain].
Defined.

(** A closed port: [read] raises without a call. *)
Lemma methods_need_a_device_witness :
  let p := set_udev PyNone (Mock.fresh (Some "ftdi:///1") None false false) in
  exists e,
    read (Mock.driver Mock.healthy) 1 4 p (Mock.world0 [Mock.b "AB"])
    = Some (Raise e, p, Mock.world0 [Mock.b "AB"]) /\
    exc_class e = AttributeError.
Proof.
  intros p.
  refine (proj1 (@methods_need_a_device _ (Mock.driver Mock.healthy) p
                   (Mock.world0 [Mock.b "AB"]) _) 0%nat 4).
  intros h. discriminate.
Defined.

(** A device that refuses the baud rate with a [ValueError]. *)
Lemma reconfigure_passes_other_errors_witness :
  let drv := Mock.driver
               (Mock.mkScript (Ok 7%nat) (Ok tt)
                  (Raise (mkExc ValueError "Invalid baudrate"))
                  (Ok tt) (Ok tt) true "no error" true) in
  exists w',
    _reconfigure_port drv (Mock.opened None) (Mock.world0 [])
    = (Raise (mkExc ValueError "Invalid baudrate"), Mock.opened None, w') /\
    trace w' = [SetBaudrate 7%nat 9600].
Proof.
  intros drv.
  destruct (@reconfigure_passes_other_errors _ drv (Mock.opened None)
              (Mock.world0 []) 7%nat (mkExc ValueError "Invalid baudrate") [] _
              eq_refl (baudrate_fails drv (Mock.opened None) 7%nat [] eq_refl)
              eq_refl) as (w' & Hrun & _ & Ht).
  exists w'. split; [exact Hrun | exact Ht].
Defined.

(** The stalled device, unable to give its error string either. *)
Lemma reconfigure_error_string_failure_witness :
  let drv := with_error_string (Mock.driver Mock.stalled)
               (fun _ d => (Raise (mkExc IOError "device gone"), d)) in
  exists w',
    _reconfigure_port drv (Mock.opened None) (Mock.world0 [])
    = (Raise (mkExc IOError "device gone"), Mock.opened None, w') /\
    trace w' = [SetBaudrate 7%nat 9600; GetErrorString 7%nat].
Proof.
  intros drv.
  exact (@reconfigure_error_string_failure _ drv (Mock.opened None)
           (Mock.world0 []) 7%nat (mkExc IOError "UsbError: Pipe error") [] _
           (mkExc IOError "device gone") []
           eq_refl (baudrate_fails drv (Mock.opened None) 7%nat [] eq_refl)
           eq_refl eq_refl).
Defined.

(** A latency call that raises an [AttributeError], and one that raises an
    [IOError]. *)
Lemma latency_failure_modes_witness :
  (exists w',
     _reconfigure_port
       (with_dynamic_latency (Mock.driver Mock.healthy)
          (fun _ _ _ _ d => (Raise (mkExc AttributeError "no backend"), d)))
       (Mock.opened None) (Mock.world0 [])
     = (Ok tt, Mock.opened None, w')) /\
  (exists w',
     _reconfigure_port
       (with_dynamic_latency (Mock.driver Mock.healthy)
          (fun _ _ _ _ d => (Raise (mkExc IOError "timeout"), d)))
       (Mock.opened None) (Mock.world0 [])
     = (Raise (mkExc SerialException "timeout (no error)"),
        Mock.opened None, w')).
Proof.
  split.
  - destruct (proj1 (@latency_failure_modes _
                (with_dynamic_latency (Mock.driver Mock.healthy)
                   (fun _ _ _ _ d => (Raise (mkExc AttributeError "no backend"), d)))
                (Mock.opened None) (Mock.world0 []) 7%nat [] [] [] _
                (mkExc AttributeError "no backend") []
                eq_refl eq_refl eq_refl eq_refl eq_refl eq_refl) eq_refl)
      as (w' & Hrun & _).
    exists w'. exact Hrun.
  - exact (proj2 (@latency_failure_modes _
                (with_dynamic_latency (Mock.driver Mock.healthy)
                   (fun _ _ _ _ d => (Raise (mkExc IOError "timeout"), d)))
                (Mock.opened None) (Mock.world0 []) 7%nat [] [] [] _
                (mkExc IOError "timeout") []
                eq_refl eq_refl eq_refl eq_refl eq_refl eq_refl)
             eq_refl "no error" [] eq_refl).
Defined.

Lemma reconfigure_call_order_witness :
  exists n tail,
    trace (snd (_reconfigure_port (Mock.driver Mock.stalled) (Mock.opened None)
                  (Mock.world0 [])))
    = ([] ++ firstn n [SetBaudrate 7%nat 9600;
                       SetLineProperty 7%nat 8 STOPBITS_ONE PARITY_NONE;
                       SetFlowctrl 7%nat ""; SetDynamicLatency 7%nat 12 200 50]
          ++ tail)%list /\
    (1 <= n)%nat /\ (tail = [] \/ tail = [GetErrorString 7%nat]).
Proof.
  pose (run := _reconfigure_port (Mock.driver Mock.stalled) (Mock.opened None)
                 (Mock.world0 [])).
  destruct (@reconfigure_call_order _ (Mock.driver Mock.stalled)
              (Mock.opened None) (Mock.world0 []) 7%nat
              (fst (fst run)) (snd (fst run)) (snd run) eq_refl eq_refl)
    as (n & tail & Ht & Hn & Htail & _).
  exists n, tail. split; [exact Ht | split; [exact Hn | exact Htail] ].
Defined.

(** A device whose second poll fails. *)
Lemma read_raises_driver_errors_witness :
  let drv := with_read_data (Mock.driver Mock.healthy)
               (fun _ _ d =>
                  match d with
                  | [] => (Raise (mkExc IOError "read failed"), [])
                  | c :: rest => (Ok c, rest)
                  end) in
  exists w0 sz d1,
    read_data drv 7%nat sz (dev w0) = (Raise (mkExc IOError "read failed"), d1).
Proof.
  intros drv.
  pose (run := read drv 2 4 (Mock.opened None) (Mock.world0 [Mock.b "AB"])).
  destruct (@read_raises_driver_errors _ drv 2 4 (Mock.opened None)
              (Mock.world0 [Mock.b "AB"]) 7%nat (mkExc IOError "read failed")
              (Mock.opened None)
              (mkWorld [] (0 + 0 + (1 # 100) + 0 + 0)%Q
                 [ReadData 7%nat 4; Sleep (1 # 100); ReadData 7%nat 2])
              eq_refl eq_refl)
    as (w0 & sz & d1 & Hr & _).
  exists w0, sz, d1. exact Hr.
Defined.

(** The scripted device keeps to the requested size. *)
Lemma deliver_bounded (sz : Z) (d : list bytes) (c : bytes) (d' : list bytes) :
  0 <= sz -> Mock.deliver sz d = (Ok c, d') -> Z.of_nat (List.length c) <= sz.
Proof.
  intros Hsz H. destruct d as [ | c0 rest]; cbn in H.
  - injection H as <- _. cbn. lia.
  - injection H as <- _. pose proof (firstn_le_length (Z.to_nat sz) c0). lia.
Defined.

Lemma read_never_exceeds_size_witness :
  read (Mock.driver Mock.healthy) 1 3 (Mock.opened (Some (Finite (1 # 2))))
       (Mock.world0 [Mock.b "ABCDE"])
  = Some (Ok (Mock.b "ABC"), Mock.opened (Some (Finite (1 # 2))),
          mkWorld [Mock.b "DE"] (0 + 0)%Q [ReadData 7%nat 3]) /\
  Z.of_nat (List.length (Mock.b "ABC")) <= 3.
Proof.
  split; [reflexivity | ].
  refine (@read_never_exceeds_size _ (Mock.driver Mock.healthy) 1 3
            (Mock.opened (Some (Finite (1 # 2)))) (Mock.world0 [Mock.b "ABCDE"])
            7%nat (Mock.b "ABC") (Mock.opened (Some (Finite (1 # 2))))
            (mkWorld [Mock.b "DE"] (0 + 0)%Q [ReadData 7%nat 3])
            eq_refl _ _ eq_refl).
  - intros sz d c d'. exact (@deliver_bounded sz d c d').
  - lia.
Defined.

Lemma read_without_timeout_never_short_witness :
  4 <= Z.of_nat (List.length (Mock.b "ABCD")).
Proof.
  exact (@read_without_timeout_never_short _ (Mock.driver Mock.healthy) 2 4
           (Mock.opened None) (Mock.world0 [Mock.b "AB"; Mock.b "CD"])
           7%nat (Mock.b "ABCD") (Mock.opened None)
           (mkWorld (@nil bytes) (0 + 0 + (1 # 100) + 0 + 0)%Q
              [ReadData 7%nat 4; Sleep (1 # 100); ReadData 7%nat 2])
           eq_refl eq_refl eq_refl).
Defined.

Lemma read_empty_means_timeout_witness :
  (3 # 100 <
   clock (mkWorld (@nil bytes) (0 + 0 + (1 # 100) + 0 + 0 + (1 # 100) + 0 + 0
                      + (1 # 100) + 0 + 0 + (1 # 100) + 0 + 0)%Q
            [ReadData 7%nat 4; Sleep (1 # 100); ReadData 7%nat 4;
             Sleep (1 # 100); ReadData 7%nat 4; Sleep (1 # 100);
             ReadData 7%nat 4; Sleep (1 # 100); ReadData 7%nat 4])
   - clock (Mock.world0 []))%Q.
Proof.
  exact (proj2 (@read_empty_means_timeout _ (Mock.driver Mock.silent) 5 4
                  (Mock.opened (Some (Finite (3 # 100)))) (Mock.world0 [])
                  7%nat (Finite (3 # 100))
                  (Mock.opened (Some (Finite (3 # 100)))) _
                  eq_refl eq_refl eq_refl eq_refl)
           (3 # 100) eq_refl).
Defined.

Lemma read_nonpositive_size_polls_once_witness :
  read (Mock.driver Mock.healthy) 1 0 (Mock.opened None)
       (Mock.world0 [Mock.b "AB"])
  = Some (Ok [], Mock.opened None,
          mkWorld [Mock.b "AB"] (0 + 0)%Q [ReadData 7%nat 0]).
Proof.
  exact (@read_nonpositive_size_polls_once _ (Mock.driver Mock.healthy) 0 0
           (Mock.opened None) (Mock.world0 [Mock.b "AB"]) 7%nat
           (@nil Byte.byte) [Mock.b "AB"]
           eq_refl (Z.le_refl 0) eq_refl).
Defined.

Lemma send_break_holds_then_releases_witness :
  send_break MockLine.driver MockLine.set_break MockLine.set_break_cost
             MockLine.sleep_check (1 # 4) (Mock.opened None) MockLine.world0
  = (Ok tt, Mock.opened None,
     mkWorld false (0 + 0 + (1 # 4) + 0 + 0)%Q [Sleep (1 # 4)]).
Proof.
  exact (@send_break_holds_then_releases _ MockLine.driver MockLine.set_break
           MockLine.set_break_cost MockLine.sleep_check (Mock.opened None)
           MockLine.world0 7%nat (1 # 4) true false
           eq_refl eq_refl eq_refl eq_refl).
Defined.

(** After a negative duration, and after one that is too long, the line is
    still in break. *)
Lemma send_break_refused_duration_witness :
  send_break MockLine.driver MockLine.set_break MockLine.set_break_cost
             MockLine.sleep_check (- (1 # 4)) (Mock.opened None) MockLine.world0
  = (Raise (mkExc ValueError "sleep length must be non-negative"),
     Mock.opened None, mkWorld true (0 + 0)%Q []) /\
  send_break MockLine.driver MockLine.set_break MockLine.set_break_cost
             MockLine.sleep_check (10000000000 # 1) (Mock.opened None)
             MockLine.world0
  = (Raise (mkExc OverflowError "timestamp too large to convert to C _PyTime_t"),
     Mock.opened None, mkWorld true (0 + 0)%Q []).
Proof.
  split.
  - exact (@send_break_refused_duration _ MockLine.driver MockLine.set_break
             MockLine.set_break_cost MockLine.sleep_check (Mock.opened None)
             MockLine.world0 7%nat (- (1 # 4)) _ true
             eq_refl eq_refl eq_refl).
  - exact (@send_break_refused_duration _ MockLine.driver MockLine.set_break
             MockLine.set_break_cost MockLine.sleep_check (Mock.opened None)
             MockLine.world0 7%nat (10000000000 # 1) _ true
             eq_refl eq_refl eq_refl).
Defined.

(** ** The rhythm of [read] *)

Section Rhythm.

Variable D : Type.
Variable drv : Driver D.

Lemma one_poll_pattern (h : Handle) (size : Z) :
  polls_with_pauses h [ReadData h size] = true.
Proof. cbn. rewrite Nat.eqb_refl. reflexivity. Qed.

Lemma more_polls_pattern (h : Handle) (size : Z) (calls : list Call) :
  polls_with_pauses h calls = true ->
  polls_with_pauses h (ReadData h size :: Sleep (1 # 100) :: calls) = true.
Proof.
  intros H. cbn [polls_with_pauses]. rewrite Nat.eqb_refl.
  destruct calls as [ | c calls]; [discriminate H | ].
  rewrite H. reflexivity.
Qed.

(** The calls of a [read] on an open port, whatever its outcome, are polls of
    the port's handle with exactly one sleep of 10 ms between each two: it
    starts with a poll, ends with a poll, and never sleeps after its last
    poll. *)
Theorem read_polls_with_pauses fuel size p (w : World D) h r p' w' :
  udev p = Dev h ->
  read drv fuel size p w = Some (r, p', w') ->
  exists calls,
    trace w' = (trace w ++ calls)%list /\
    polls_with_pauses h calls = true.
Proof.
  intros Hu. unfold read. generalize (clock w) as start.
  generalize (@nil Byte.byte) as data. revert size w.
  induction fuel as [ | fuel IH]; intros size w data start H;
    [discriminate H | ].
  assert (Hlast : forall d1,
            w' = polled drv h size d1 w ->
            exists calls,
              trace w' = (trace w ++ calls)%list /\
              polls_with_pauses h calls = true).
  { intros d1 ->. exists [ReadData h size].
    split; [reflexivity | apply one_poll_pattern]. }
  destruct (read_data drv h size (dev w)) as [[buf | e0] d1] eqn:Hr.
  - rewrite (read_loop_poll drv fuel data start size p w Hu Hr) in H.
    cbv zeta in H.
    assert (Hagain :
              read_loop drv fuel (data ++ buf)%list start
                (size - Z.of_nat (List.length buf)) p
                (slept drv (polled drv h size d1 w)) = Some (r, p', w') ->
              exists calls,
                trace w' = (trace w ++ calls)%list /\
                polls_with_pauses h calls = true).
    { intros Hrun. destruct (IH _ _ _ _ Hrun) as (calls & Ht & Hp).
      exists (ReadData h size :: Sleep (1 # 100) :: calls). split.
      - rewrite Ht. cbn [slept polled trace].
        rewrite <- !app_assoc. reflexivity.
      - apply more_polls_pattern. exact Hp. }
    destruct (size - Z.of_nat (List.length buf) <=? 0);
      [injection H as _ _ <-; exact (Hlast d1 eq_refl) | ].
    destruct (_timeout p) as [timeout | ]; [ | exact (Hagain H)].
    destruct (truthy buf);
      [injection H as _ _ <-; exact (Hlast d1 eq_refl) | ].
    destruct (gt_float (clock (polled drv h size d1 w) - start) timeout);
      [injection H as _ _ <-; exact (Hlast d1 eq_refl) | exact (Hagain H)].
  - cbn [read_loop] in H. unfold bind in H.
    rewrite (udev_method_run _ _ _ Hu) in H. cbv beta iota in H.
    erewrite invoke_run in H by exact Hr.
    injection H as _ _ <-. exact (Hlast d1 eq_refl).
Qed.

End Rhythm.

Lemma read_polls_with_pauses_witness :
  polls_with_pauses 7%nat
    [ReadData 7%nat 4; Sleep (1 # 100); ReadData 7%nat 2] = true.
Proof.
  destruct (@read_polls_with_pauses _ (Mock.driver Mock.healthy) 2 4
              (Mock.opened None) (Mock.world0 [Mock.b "AB"; Mock.b "CD"])
              7%nat (Ok (Mock.b "ABCD")) (Mock.opened None)
              (mkWorld (@nil bytes) (0 + 0 + (1 # 100) + 0 + 0)%Q
                 [ReadData 7%nat 4; Sleep (1 # 100); ReadData 7%nat 2])
              eq_refl eq_refl) as (calls & Ht & Hp).
  cbn [trace Mock.world0 app] in Ht. rewrite Ht. exact Hp.
Defined.
